(** * Legal Aid Student Portal: the front-end's helpers and form handlers

    A shallow embedding of [utils/helpers.js], [pages/StudentPortal.jsx],
    [pages/QueryPage.jsx], [pages/DocumentsPage.jsx], [pages/ResponsePage.jsx]
    and [components/AudioPlayer.jsx].

    JavaScript strings are sequences of UTF-16 code units; objects used as
    lookup tables are finite maps of own properties in front of
    [Object.prototype]; a handler is a function from the component state (and
    the outcome of the request it awaits) to the effects it performs, in
    order, and the state it leaves. *)

From Stdlib Require Import ZArith NArith String Ascii List Bool Lia.
From stdpp Require Import base gmap list strings.
Import ListNotations.

Local Open Scope N_scope.
Local Open Scope list_scope.

(** ** JavaScript strings and values *)

Module JS.

(** A string is the list of its UTF-16 code units. *)
Abbreviation jsstring := (list N).

(** The code units of an ASCII literal of the source. *)
Fixpoint lit (s : string) : jsstring :=
  match s with
  | EmptyString => []
  | String a s' => N_of_ascii a :: lit s'
  end.

(** WhiteSpace and LineTerminator code points of ECMAScript, the characters
    [String.prototype.trim] strips. *)
Definition is_white_space (c : N) : bool :=
  (c =? 0x09) || (c =? 0x0A) || (c =? 0x0B) || (c =? 0x0C) || (c =? 0x0D)
  || (c =? 0x20) || (c =? 0xA0) || (c =? 0x1680)
  || ((0x2000 <=? c) && (c <=? 0x200A))
  || (c =? 0x2028) || (c =? 0x2029) || (c =? 0x202F) || (c =? 0x205F)
  || (c =? 0x3000) || (c =? 0xFEFF).

Fixpoint trimStart (s : jsstring) : jsstring :=
  match s with
  | [] => []
  | c :: s' => if is_white_space c then trimStart s' else s
  end.

Definition trimEnd (s : jsstring) : jsstring := rev (trimStart (rev s)).

(** [s.trim()] *)
Definition trim (s : jsstring) : jsstring := trimEnd (trimStart s).

Fixpoint starts_with (p s : jsstring) : bool :=
  match p, s with
  | [], _ => true
  | _ :: _, [] => false
  | a :: p', b :: s' => (a =? b) && starts_with p' s'
  end.

(** [s.includes(p)] *)
Fixpoint includes (p s : jsstring) : bool :=
  starts_with p s ||
  match s with
  | [] => false
  | _ :: s' => includes p s'
  end.

(** [s.split(sep)] for a separator of one code unit: the segments between
    the occurrences of [sep]; the empty string has the one segment [""]. *)
Fixpoint split (sep : N) (s : jsstring) : list jsstring :=
  match s with
  | [] => [[]]
  | c :: s' =>
      if c =? sep then [] :: split sep s'
      else match split sep s' with
           | seg :: rest => (c :: seg) :: rest
           | [] => [[c]]
           end
  end.

(** [segs.join(sep)] for a separator of one code unit. *)
Fixpoint join (sep : N) (segs : list jsstring) : jsstring :=
  match segs with
  | [] => []
  | [seg] => seg
  | seg :: rest => seg ++ sep :: join sep rest
  end.

(** A non-empty string is truthy, [''] is falsy. *)
Definition truthy_string (s : jsstring) : bool :=
  match s with [] => false | _ :: _ => true end.

(** The values the lookups of [helpers.js] can produce: a string of a table,
    [undefined], or something inherited from [Object.prototype] (one of its
    built-in methods, or the prototype object itself through [__proto__]).
    [null] is a possible argument of [formatDate]. *)
Inductive value : Type :=
| VUndefined
| VNull
| VString (s : jsstring)
| VBuiltin (name : string)
| VObjectPrototype.

Definition ToBoolean (v : value) : bool :=
  match v with
  | VUndefined | VNull => false
  | VString s => truthy_string s
  | VBuiltin _ | VObjectPrototype => true
  end.

(** [a || b] *)
Definition or_else (a b : value) : value := if ToBoolean a then a else b.

(** The properties every object literal inherits: those of
    [Object.prototype], with the legacy accessors browsers define. *)
Definition Object_prototype : gmap (list N) value :=
  list_to_map
    [ (lit "constructor", VBuiltin "Object");
      (lit "hasOwnProperty", VBuiltin "hasOwnProperty");
      (lit "isPrototypeOf", VBuiltin "isPrototypeOf");
      (lit "propertyIsEnumerable", VBuiltin "propertyIsEnumerable");
      (lit "toLocaleString", VBuiltin "toLocaleString");
      (lit "toString", VBuiltin "toString");
      (lit "valueOf", VBuiltin "valueOf");
      (lit "__proto__", VObjectPrototype);
      (lit "__defineGetter__", VBuiltin "__defineGetter__");
      (lit "__defineSetter__", VBuiltin "__defineSetter__");
      (lit "__lookupGetter__", VBuiltin "__lookupGetter__");
      (lit "__lookupSetter__", VBuiltin "__lookupSetter__") ].

(** [obj[key]] for an object literal with own properties [own]: the own
    property, else the inherited one, else [undefined]. *)
Definition get (own : gmap (list N) value) (key : jsstring) : value :=
  match own !! key with
  | Some v => v
  | None =>
      match Object_prototype !! key with
      | Some v => v
      | None => VUndefined
      end
  end.

(** An object literal whose properties are all strings. *)
Definition object_literal (props : list (string * jsstring)) : gmap (list N) value :=
  list_to_map (map (fun p => (lit (fst p), VString (snd p))) props).

End JS.

Import JS.

(** ** utils/helpers.js *)

Module Helpers.

Definition category_styles : gmap (list N) value :=
  object_literal
    [ ("fir", lit "category-fir");
      ("rti", lit "category-rti");
      ("consumer", lit "category-consumer");
      ("labour", lit "category-labour");
      ("family", lit "category-family");
      ("property", lit "category-property");
      ("general", lit "category-general") ]%string.

Definition getCategoryStyle (category : jsstring) : value :=
  or_else (get category_styles category) (get category_styles (lit "general")).

Definition category_labels : gmap (list N) value :=
  object_literal
    [ ("fir", lit "FIR / Police");
      ("rti", lit "RTI");
      ("consumer", lit "Consumer");
      ("labour", lit "Labour");
      ("family", lit "Family");
      ("property", lit "Property");
      ("general", lit "General") ]%string.

Definition getCategoryLabel (category : jsstring) : value :=
  or_else (get category_labels category) (VString category).

Definition status_styles : gmap (list N) value :=
  object_literal
    [ ("open", lit "status-open");
      ("assigned", lit "status-assigned");
      ("closed", lit "status-closed") ]%string.

Definition getStatusStyle (status : jsstring) : value :=
  or_else (get status_styles status) (get status_styles (lit "open")).

(** The Hindi and Telugu names, as the code units of the source literals. *)
Definition hindi : jsstring := [0x939; 0x93F; 0x902; 0x926; 0x940].
Definition telugu : jsstring := [0xC24; 0xC46; 0xC32; 0xC41; 0xC17; 0xC41].

Definition language_labels : gmap (list N) value :=
  object_literal
    [ ("en", lit "English"); ("hi", hindi); ("te", telugu) ]%string.

Definition getLanguageLabel (code : jsstring) : value :=
  or_else (get language_labels code) (VString code).

(** How a call ends: it returns a value, or it throws. *)
Inductive completion (A : Type) : Type :=
| Returned (a : A)
| Thrown (error : string).
Arguments Returned {A} a.
Arguments Thrown {A} error.

(** [{ day: '2-digit', month: 'short', year: 'numeric' }] *)
Definition date_options : list (string * jsstring) :=
  [ ("day", lit "2-digit"); ("month", lit "short"); ("year", lit "numeric") ]%string.

(** [formatDate] builds a [Date] from its argument and formats it with
    [toLocaleDateString('en-IN', date_options)]. Both belong to the
    platform: [Date_of v] is the time value of [new Date(v)], [None] when it
    is NaN (building a date from one of the values above does not throw);
    [DateTimeFormat locales options] is the formatter that constructing an
    [Intl.DateTimeFormat] gives, [None] when the constructor throws a
    RangeError (a malformed locale tag, an option value that is not
    allowed). *)
Section FormatDate.
Variable Date_of : value -> option Z.
Variable DateTimeFormat :
  jsstring -> list (string * jsstring) -> option (Z -> jsstring).

(** [date.toLocaleDateString(locales, options)] for a date of time value
    [date]: an invalid date is ["Invalid Date"] before any formatter is
    built. *)
Definition toLocaleDateString (date : option Z) (locales : jsstring)
  (options : list (string * jsstring)) : completion jsstring :=
  match date with
  | None => Returned (lit "Invalid Date")
  | Some t =>
      match DateTimeFormat locales options with
      | Some format => Returned (format t)
      | None => Thrown "RangeError"
      end
  end.

Definition formatDate (dateString : value) : completion jsstring :=
  if negb (ToBoolean dateString) then Returned (lit "")
  else toLocaleDateString (Date_of dateString) (lit "en-IN") date_options.
End FormatDate.

End Helpers.

(** ** What a handler does to the outside world *)

Module Browser.

(** The JSON bodies the handlers send and receive. *)
#[local] Set Warnings "-register-all".
Inductive json : Type :=
| JNull
| JString (s : jsstring)
| JArray (items : list json)
| JObject (fields : list (string * json)).

(** What an [<audio>] element or [new Audio(url)] plays: the object URL that
    [URL.createObjectURL] made for a blob (it resolves to that blob's bytes),
    or an ordinary URL written in the source. *)
Inductive media_src : Type :=
| ObjectURL (blob : list Byte.byte)
| Location (href : jsstring).

Definition is_blob_url (src : media_src) : bool :=
  match src with
  | ObjectURL _ => true
  | Location href => starts_with (lit "blob:") href
  end.

(** The observable actions of the handlers, in the order they happen.
    [SpeechSynthesis] is the browser's own synthesizer
    ([window.speechSynthesis.speak]). *)
Inductive effect : Type :=
| PreventDefault
| ToastError (msg : string)
| ToastSuccess (msg : string)
| ConsoleError (msg : string)
| HttpGet (url : jsstring)
| HttpPost (url : jsstring) (body : json)
| Navigate (path : jsstring)
| CreateObjectURL (blob : list Byte.byte)
| AudioPause (src : media_src)
| AudioPlay (src : media_src)
| SpeechSynthesis (text : jsstring).

(** How an awaited request settles. *)
Inductive outcome (A : Type) : Type :=
| Fulfilled (data : A)
| Rejected.
Arguments Fulfilled {A} data.
Arguments Rejected {A}.

Definition is_request (e : effect) : bool :=
  match e with
  | HttpGet _ | HttpPost _ _ => true
  | _ => false
  end.

Definition is_post_to (url : jsstring) (e : effect) : bool :=
  match e with
  | HttpPost u _ => if decide (u = url) then true else false
  | _ => false
  end.

Definition is_error_toast (e : effect) : bool :=
  match e with
  | ToastError _ => true
  | _ => false
  end.

Definition is_playback (e : effect) : bool :=
  match e with
  | AudioPlay _ => true
  | _ => false
  end.

Definition is_local_synthesis (e : effect) : bool :=
  match e with
  | SpeechSynthesis _ => true
  | _ => false
  end.

(** [const API = `${BACKEND_URL}/api`] *)
Definition API (BACKEND_URL : jsstring) : jsstring := BACKEND_URL ++ lit "/api".

Definition comma : N := N_of_ascii ",".

End Browser.

Import Browser.

(** ** pages/StudentPortal.jsx *)

Module StudentPortal.

Record student_form : Type := {
  name : jsstring;
  email : jsstring;
  college : jsstring;
  skills : jsstring
}.

(** The part of the component state [handleAddStudent] reads or writes. *)
Record state : Type := {
  newStudent : student_form;
  studentDialogOpen : bool;
  loading : bool
}.

Definition empty_form : student_form :=
  {| name := lit ""; email := lit ""; college := lit ""; skills := lit "" |}.

(** [newStudent.skills.split(',').map(s => s.trim()).filter(Boolean)] *)
Definition skillsArray (f : student_form) : list jsstring :=
  List.filter truthy_string (map trim (split comma (skills f))).

(** [{ ...newStudent, skills: skillsArray }] *)
Definition student_body (f : student_form) : json :=
  JObject [ ("name", JString (name f));
            ("email", JString (email f));
            ("college", JString (college f));
            ("skills", JArray (map JString (skillsArray f))) ]%string.

Section Handlers.
Variable BACKEND_URL : jsstring.

Definition students_url : jsstring := API BACKEND_URL ++ lit "/students".
Definition cases_url : jsstring := API BACKEND_URL ++ lit "/cases".

(** [fetchData()] up to its [await]: the loading flag and the two GETs. *)
Definition fetchData (st : state) : list effect * state :=
  ([HttpGet students_url; HttpGet cases_url],
   {| newStudent := newStudent st;
      studentDialogOpen := studentDialogOpen st;
      loading := true |}).

(** [handleAddStudent(e)], with [posted] the way the POST settles. *)
Definition handleAddStudent (st : state) (posted : outcome unit)
  : list effect * state :=
  let f := newStudent st in
  if negb (truthy_string (trim (name f))) then
    ([PreventDefault; ToastError "Please enter student name"], st)
  else if negb (truthy_string (trim (email f))) then
    ([PreventDefault; ToastError "Please enter email address"], st)
  else if negb (includes (lit "@") (email f)) then
    ([PreventDefault; ToastError "Please enter a valid email address"], st)
  else if negb (truthy_string (trim (college f))) then
    ([PreventDefault; ToastError "Please enter college name"], st)
  else
    let post := HttpPost students_url (student_body f) in
    match posted with
    | Fulfilled _ =>
        let '(fetched, st') :=
          fetchData {| newStudent := empty_form;
                       studentDialogOpen := false;
                       loading := loading st |} in
        ([PreventDefault; post; ToastSuccess "Student added successfully!"]
           ++ fetched, st')
    | Rejected =>
        ([PreventDefault; post;
          ConsoleError "Error adding student:";
          ToastError "Failed to add student. Please try again."], st)
    end.
End Handlers.

End StudentPortal.

(** ** pages/QueryPage.jsx *)

Module QueryPage.

(** What [VoiceRecorder] hands to [onVoiceResponse]. *)
Record voice_response : Type := {
  query_text : jsstring;
  voice_language : jsstring;
  answer : jsstring
}.

Record state : Type := {
  queryText : jsstring;
  language : jsstring;
  isSubmitting : bool;
  voiceResponse : option voice_response;
  isPlayingTTS : bool;
  useVoice : bool
}.

(** The [useState] initial values. *)
Definition initial : state :=
  {| queryText := lit ""; language := lit "en"; isSubmitting := false;
     voiceResponse := None; isPlayingTTS := false; useVoice := false |}.

Definition setQueryText (s : jsstring) (st : state) : state :=
  {| queryText := s; language := language st; isSubmitting := isSubmitting st;
     voiceResponse := voiceResponse st; isPlayingTTS := isPlayingTTS st;
     useVoice := useVoice st |}.

Definition setLanguage (l : jsstring) (st : state) : state :=
  {| queryText := queryText st; language := l; isSubmitting := isSubmitting st;
     voiceResponse := voiceResponse st; isPlayingTTS := isPlayingTTS st;
     useVoice := useVoice st |}.

Definition setIsSubmitting (b : bool) (st : state) : state :=
  {| queryText := queryText st; language := language st; isSubmitting := b;
     voiceResponse := voiceResponse st; isPlayingTTS := isPlayingTTS st;
     useVoice := useVoice st |}.

Definition setVoiceResponse (r : option voice_response) (st : state) : state :=
  {| queryText := queryText st; language := language st;
     isSubmitting := isSubmitting st; voiceResponse := r;
     isPlayingTTS := isPlayingTTS st; useVoice := useVoice st |}.

Definition setIsPlayingTTS (b : bool) (st : state) : state :=
  {| queryText := queryText st; language := language st;
     isSubmitting := isSubmitting st; voiceResponse := voiceResponse st;
     isPlayingTTS := b; useVoice := useVoice st |}.

Definition setUseVoice (b : bool) (st : state) : state :=
  {| queryText := queryText st; language := language st;
     isSubmitting := isSubmitting st; voiceResponse := voiceResponse st;
     isPlayingTTS := isPlayingTTS st; useVoice := b |}.

(** What [handleSubmit] reads of the response to the POST: [response.data]
    is [null] or [undefined] ([DataNullish], reading [.id] of it throws a
    TypeError), or it is an object whose [id] is a string, or is missing
    ([None]). *)
Inductive response_data : Type :=
| DataNullish
| DataObject (id : option jsstring).

(** [`${id}`] *)
Definition template_of (id : option jsstring) : jsstring :=
  match id with
  | Some s => s
  | None => lit "undefined"
  end.

(** [{ query_text: queryText, language: language }] *)
Definition query_body (st : state) : json :=
  JObject [ ("query_text", JString (queryText st));
            ("language", JString (language st)) ]%string.

(** [{ text: ..., language: ... }], the body of a text-to-speech request. *)
Definition tts_body (text lang : jsstring) : json :=
  JObject [ ("text", JString text); ("language", JString lang) ]%string.

(** The [disabled] attribute of the submit button in the rendered page. *)
Definition submit_disabled (st : state) : bool :=
  isSubmitting st || negb (truthy_string (trim (queryText st))).

(** The [disabled] attribute of the Play Response button; the button is
    rendered only while [voiceResponse] is set. *)
Definition play_disabled (st : state) : bool := isPlayingTTS st.

Section Handlers.
Variable BACKEND_URL : jsstring.

Definition queries_url : jsstring := API BACKEND_URL ++ lit "/queries".
Definition tts_url : jsstring := API BACKEND_URL ++ lit "/text-to-speech".

(** [handleSubmit(e)] up to its [await]: the effects, the state, and
    whether a request is now awaited. *)
Definition handleSubmit_start (st : state) : list effect * state * bool :=
  if negb (truthy_string (trim (queryText st))) then
    ([PreventDefault; ToastError "Please enter your legal query"], st, false)
  else
    ([PreventDefault; HttpPost queries_url (query_body st)],
     setIsSubmitting true st, true).

(** [handleSubmit(e)] from the point the POST settles, in the state the
    component has by then. *)
Definition handleSubmit_resume (posted : outcome response_data) (st : state)
  : list effect * state :=
  match posted with
  | Fulfilled (DataObject id) =>
      ([ToastSuccess "Query processed successfully!";
        Navigate (lit "/response/" ++ template_of id)],
       setIsSubmitting false st)
  | Fulfilled DataNullish =>
      ([ToastSuccess "Query processed successfully!";
        ConsoleError "Error submitting query:";
        ToastError "Failed to process query. Please try again."],
       setIsSubmitting false st)
  | Rejected =>
      ([ConsoleError "Error submitting query:";
        ToastError "Failed to process query. Please try again."],
       setIsSubmitting false st)
  end.

(** One whole run of [handleSubmit(e)] with nothing in between. *)
Definition handleSubmit (st : state) (posted : outcome response_data)
  : list effect * state :=
  match handleSubmit_start st with
  | (fx, st1, true) =>
      let '(fx', st2) := handleSubmit_resume posted st1 in (fx ++ fx', st2)
  | (fx, st1, false) => (fx, st1)
  end.

(** The text-to-speech request and playback shared, statement for
    statement, by [handleVoiceResponse] and the Play Response button. *)
Definition play_tts_start (text lang : jsstring) (st : state)
  : list effect * state :=
  ([HttpPost tts_url (tts_body text lang)], setIsPlayingTTS true st).

Definition play_tts_resume (spoken : outcome (list Byte.byte)) (st : state)
  : list effect * state :=
  match spoken with
  | Fulfilled blob =>
      ([CreateObjectURL blob; AudioPlay (ObjectURL blob);
        ToastSuccess "Playing AI response..."],
       setIsPlayingTTS false st)
  | Rejected =>
      ([ConsoleError "TTS error:"; ToastError "Failed to play audio response"],
       setIsPlayingTTS false st)
  end.

(** [handleVoiceResponse(response)] up to its [await]. *)
Definition handleVoiceResponse_start (r : voice_response) (st : state)
  : list effect * state :=
  play_tts_start (answer r) (voice_language r)
    (setQueryText (query_text r) (setVoiceResponse (Some r) st)).

(** The events of a mounted page. [SetQueryText] stands for the textarea's
    [onChange], [handleSampleClick], the Load Sample Query button and
    [handleVoiceTranscript], which all call [setQueryText]. *)
Inductive event : Type :=
| SetQueryText (s : jsstring)
| SetLanguage (l : jsstring)
| SetUseVoice (b : bool)
| VoiceResponse (r : voice_response)
| ClickPlayResponse
| ClearVoiceResponse
| TtsSettled (spoken : outcome (list Byte.byte))
| SubmitForm
| QuerySettled (posted : outcome response_data).

(** A mounted page: the component state, the POSTs to [/api/queries] and to
    [/api/text-to-speech] that have not settled yet, and whether the page
    has navigated away. *)
Record page : Type := {
  ui : state;
  queries_in_flight : nat;
  tts_in_flight : nat;
  left : bool
}.

Definition mounted : page :=
  {| ui := initial; queries_in_flight := 0; tts_in_flight := 0; left := false |}.

Definition navigates (e : effect) : bool :=
  match e with
  | Navigate _ => true
  | _ => false
  end.

(** One event on a page: [None] when the page cannot receive it (the form
    is submitted through its submit button, which a disabled button does not
    do; a response needs a request in flight; a page that navigated away is
    unmounted). React re-renders before the next event is delivered, so each
    event sees the buttons of the current state. *)
Definition step (p : page) (e : event) : option (list effect * page) :=
  if left p then None else
  let st := ui p in
  let keep st' := Some ([], {| ui := st'; queries_in_flight := queries_in_flight p;
                               tts_in_flight := tts_in_flight p; left := false |}) in
  match e with
  | SetQueryText s => keep (setQueryText s st)
  | SetLanguage l => keep (setLanguage l st)
  | SetUseVoice b => keep (setUseVoice b st)
  | ClearVoiceResponse =>
      match voiceResponse st with
      | Some _ => keep (setVoiceResponse None st)
      | None => None
      end
  | VoiceResponse r =>
      let '(fx, st') := handleVoiceResponse_start r st in
      Some (fx, {| ui := st'; queries_in_flight := queries_in_flight p;
                   tts_in_flight := S (tts_in_flight p); left := false |})
  | ClickPlayResponse =>
      match voiceResponse st with
      | Some r =>
          if play_disabled st then None else
          let '(fx, st') := play_tts_start (answer r) (voice_language r) st in
          Some (fx, {| ui := st'; queries_in_flight := queries_in_flight p;
                       tts_in_flight := S (tts_in_flight p); left := false |})
      | None => None
      end
  | TtsSettled spoken =>
      match tts_in_flight p with
      | O => None
      | S n =>
          let '(fx, st') := play_tts_resume spoken st in
          Some (fx, {| ui := st'; queries_in_flight := queries_in_flight p;
                       tts_in_flight := n; left := false |})
      end
  | SubmitForm =>
      if submit_disabled st then None else
      let '(fx, st', awaiting) := handleSubmit_start st in
      Some (fx, {| ui := st';
                   queries_in_flight :=
                     if awaiting then S (queries_in_flight p)
                     else queries_in_flight p;
                   tts_in_flight := tts_in_flight p; left := false |})
  | QuerySettled posted =>
      match queries_in_flight p with
      | O => None
      | S n =>
          let '(fx, st') := handleSubmit_resume posted st in
          Some (fx, {| ui := st'; queries_in_flight := n;
                       tts_in_flight := tts_in_flight p;
                       left := existsb navigates fx |})
      end
  end.

(** The pages a mounted page can become. *)
Inductive reachable : page -> Prop :=
| reachable_mounted : reachable mounted
| reachable_step p e fx p' :
    reachable p -> step p e = Some (fx, p') -> reachable p'.

End Handlers.

End QueryPage.

(** ** pages/DocumentsPage.jsx *)

Module DocumentsPage.

Module FIR.
Record details : Type := {
  name : jsstring;
  age : jsstring;
  address : jsstring;
  mobile : jsstring;
  email : jsstring;
  incident_date : jsstring;
  incident_time : jsstring;
  incident_place : jsstring;
  incident_description : jsstring;
  accused_details : jsstring;
  witness_details : jsstring;
  evidence_list : jsstring
}.

Definition fields (d : details) : list (string * json) :=
  [ ("name", JString (name d));
    ("age", JString (age d));
    ("address", JString (address d));
    ("mobile", JString (mobile d));
    ("email", JString (email d));
    ("incident_date", JString (incident_date d));
    ("incident_time", JString (incident_time d));
    ("incident_place", JString (incident_place d));
    ("incident_description", JString (incident_description d));
    ("accused_details", JString (accused_details d));
    ("witness_details", JString (witness_details d));
    ("evidence_list", JString (evidence_list d)) ]%string.
End FIR.

Module RTI.
Record details : Type := {
  name : jsstring;
  address : jsstring;
  mobile : jsstring;
  email : jsstring;
  department_name : jsstring;
  department_address : jsstring;
  question_1 : jsstring;
  question_2 : jsstring;
  question_3 : jsstring;
  period : jsstring;
  fee : jsstring;
  payment_mode : jsstring
}.

Definition fields (d : details) : list (string * json) :=
  [ ("name", JString (name d));
    ("address", JString (address d));
    ("mobile", JString (mobile d));
    ("email", JString (email d));
    ("department_name", JString (department_name d));
    ("department_address", JString (department_address d));
    ("question_1", JString (question_1 d));
    ("question_2", JString (question_2 d));
    ("question_3", JString (question_3 d));
    ("period", JString (period d));
    ("fee", JString (fee d));
    ("payment_mode", JString (payment_mode d)) ]%string.
End RTI.

Record state : Type := {
  docType : jsstring;
  language : jsstring;
  isGenerating : bool;
  generatedDoc : option json;
  firDetails : FIR.details;
  rtiDetails : RTI.details
}.

Definition setIsGenerating (b : bool) (st : state) : state :=
  {| docType := docType st; language := language st; isGenerating := b;
     generatedDoc := generatedDoc st; firDetails := firDetails st;
     rtiDetails := rtiDetails st |}.

Definition setGeneratedDoc (doc : option json) (st : state) : state :=
  {| docType := docType st; language := language st;
     isGenerating := isGenerating st; generatedDoc := doc;
     firDetails := firDetails st; rtiDetails := rtiDetails st |}.

(** [docType === 'FIR' ? firDetails : rtiDetails] *)
Inductive selected : Type :=
| OfFir (d : FIR.details)
| OfRti (d : RTI.details).

Definition details (st : state) : selected :=
  if decide (docType st = lit "FIR") then OfFir (firDetails st)
  else OfRti (rtiDetails st).

Definition name (d : selected) : jsstring :=
  match d with
  | OfFir f => FIR.name f
  | OfRti r => RTI.name r
  end.

Definition address (d : selected) : jsstring :=
  match d with
  | OfFir f => FIR.address f
  | OfRti r => RTI.address r
  end.

Definition fields (d : selected) : list (string * json) :=
  match d with
  | OfFir f => FIR.fields f
  | OfRti r => RTI.fields r
  end.

(** [new Date().toISOString().split('T')[0]], with [now] the ISO string of
    the clock. *)
Definition current_date (now : jsstring) : jsstring :=
  hd [] (split (N_of_ascii "T") now).

(** [details.address.split(',')[0] || 'Your City'] *)
Definition place (d : selected) : jsstring :=
  let city := hd [] (split comma (address d)) in
  if truthy_string city then city else lit "Your City".

Definition document_body (st : state) (now : jsstring) : json :=
  let d := details st in
  JObject [ ("doc_type", JString (docType st));
            ("language", JString (language st));
            ("details",
             JObject (fields d ++
                      [ ("current_date", JString (current_date now));
                        ("place", JString (place d)) ])) ]%string.

(** [response.data] as [generatedDoc] holds it: [null] is [None], as in
    [useState(null)]. *)
Definition as_document (data : json) : option json :=
  match data with
  | JNull => None
  | _ => Some data
  end.

Section Handlers.
Variable BACKEND_URL : jsstring.

Definition documents_url : jsstring := API BACKEND_URL ++ lit "/documents".

(** [handleGenerateDocument()], with [now] the clock's ISO string and
    [posted] the way the POST settles ([response.data] when it succeeds). *)
Definition handleGenerateDocument (st : state) (now : jsstring)
  (posted : outcome json) : list effect * state :=
  let d := details st in
  if negb (truthy_string (name d)) || negb (truthy_string (address d)) then
    ([ToastError "Please fill in at least your name and address"], st)
  else
    let post := HttpPost documents_url (document_body st now) in
    match posted with
    | Fulfilled data =>
        ([post; ToastSuccess "Document generated successfully!"],
         setIsGenerating false
           (setGeneratedDoc (as_document data) (setIsGenerating true st)))
    | Rejected =>
        ([post; ConsoleError "Error generating document:";
          ToastError "Failed to generate document"],
         setIsGenerating false (setIsGenerating true st))
    end.
End Handlers.

End DocumentsPage.

(** ** pages/ResponsePage.jsx *)

Module ResponsePage.

(** The fields of the fetched query that [playTextToSpeech] reads; [None]
    is a field that is [undefined] or [null]. *)
Record query_record : Type := {
  response_text : option jsstring;
  detected_language : option jsstring
}.

Record state : Type := {
  query : option query_record;
  isGeneratingSpeech : bool;
  audioRef : option media_src
}.

Definition setIsGeneratingSpeech (b : bool) (st : state) : state :=
  {| query := query st; isGeneratingSpeech := b; audioRef := audioRef st |}.

Definition set_audioRef (a : media_src) (st : state) : state :=
  {| query := query st; isGeneratingSpeech := isGeneratingSpeech st;
     audioRef := Some a |}.

(** A field read as a condition or on the left of [||]: the string when it
    is there and not empty. *)
Definition truthy_field (f : option jsstring) : option jsstring :=
  match f with
  | Some s => if truthy_string s then Some s else None
  | None => None
  end.

(** [query?.response_text], when truthy. *)
Definition text_to_speak (st : state) : option jsstring :=
  match query st with
  | Some q => truthy_field (response_text q)
  | None => None
  end.

(** [query.detected_language || 'en'] *)
Definition speech_language (q : query_record) : jsstring :=
  match truthy_field (detected_language q) with
  | Some l => l
  | None => lit "en"
  end.

Section Handlers.
Variable BACKEND_URL : jsstring.

Definition tts_url : jsstring := API BACKEND_URL ++ lit "/text-to-speech".

(** [playTextToSpeech()], with [spoken] the way the POST settles (the blob
    of [response.data] when it succeeds). *)
Definition playTextToSpeech (st : state) (spoken : outcome (list Byte.byte))
  : list effect * state :=
  match query st, text_to_speak st with
  | Some q, Some text =>
      let post :=
        HttpPost tts_url
          (JObject [ ("text", JString text);
                     ("language", JString (speech_language q)) ]%string) in
      match spoken with
      | Fulfilled blob =>
          let audioUrl := ObjectURL blob in
          ([post; CreateObjectURL blob]
             ++ match audioRef st with
                | Some playing => [AudioPause playing]
                | None => []
                end
             ++ [AudioPlay audioUrl; ToastSuccess "Playing audio response..."],
           setIsGeneratingSpeech false
             (set_audioRef audioUrl (setIsGeneratingSpeech true st)))
      | Rejected =>
          ([post; ConsoleError "Error generating speech:";
            ToastError "Failed to generate audio. Please try again."],
           setIsGeneratingSpeech false (setIsGeneratingSpeech true st))
      end
  | _, _ => ([], st)
  end.
End Handlers.

End ResponsePage.

(** ** components/AudioPlayer.jsx *)

Module AudioPlayer.

(** What the component renders: the notice, or the player with its
    [<audio>] element. *)
Inductive view : Type :=
| AudioNotAvailable
| Player (src : media_src).

Section Render.
Variable BACKEND_URL : jsstring.

(** [`${BACKEND_URL}/api/audio/${audioId}`] *)
Definition audio_src (audioId : jsstring) : media_src :=
  Location (BACKEND_URL ++ lit "/api/audio/" ++ audioId).

(** The component for an [audioId] that is a string, or missing ([None]). *)
Definition render (audioId : option jsstring) : view :=
  match audioId with
  | Some id => if truthy_string id then Player (audio_src id) else AudioNotAvailable
  | None => AudioNotAvailable
  end.
End Render.

End AudioPlayer.

(** ** Words of the specification *)

Module Spec.

(** The seven categories, the three statuses and the three language codes
    the tables of [helpers.js] know. *)
Definition categories : list jsstring :=
  [lit "fir"; lit "rti"; lit "consumer"; lit "labour"; lit "family";
   lit "property"; lit "general"].

Definition statuses : list jsstring := [lit "open"; lit "assigned"; lit "closed"].

Definition language_codes : list jsstring := [lit "en"; lit "hi"; lit "te"].

(** A string whose first code unit, if any, is not white space. *)
Definition starts_clean (s : jsstring) : bool :=
  match s with
  | [] => true
  | c :: _ => negb (is_white_space c)
  end.

(** A string with no white space at either end. *)
Definition no_surrounding_space (s : jsstring) : bool :=
  starts_clean s && starts_clean (rev s).

(** A string without the code unit [c]. *)
Definition free_of (c : N) (s : jsstring) : bool :=
  forallb (fun x => negb (x =? c)) s.

(** The add-student form passes the client-side validation: name, email
    and college are not blank, and the email has an ['@'] in it. *)
Definition valid_form (f : StudentPortal.student_form) : Prop :=
  trim (StudentPortal.name f) <> [] /\
  trim (StudentPortal.email f) <> [] /\
  In (N_of_ascii "@") (StudentPortal.email f) /\
  trim (StudentPortal.college f) <> [].

End Spec.

Import Spec.

(** ** Sample inputs *)

Module Samples.

Definition localhost : jsstring := lit "http://localhost:8000".

(** The add-student dialog as it opens. *)
Definition blank_student : StudentPortal.state :=
  {| StudentPortal.newStudent := StudentPortal.empty_form;
     StudentPortal.studentDialogOpen := true;
     StudentPortal.loading := false |}.

(** The dialog filled in for one student. *)
Definition asha_student : StudentPortal.state :=
  {| StudentPortal.newStudent :=
       {| StudentPortal.name := lit "Asha Rao";
          StudentPortal.email := lit "asha@college.edu";
          StudentPortal.college := lit "NLU Hyderabad";
          StudentPortal.skills := lit " Criminal Law, RTI ,, Drafting " |};
     StudentPortal.studentDialogOpen := true;
     StudentPortal.loading := false |}.

(** The query page with only white space typed into it. *)
Definition blank_query : QueryPage.state :=
  QueryPage.setQueryText (lit "   ") QueryPage.initial.

(** The query page with the first sample query typed into it. *)
Definition theft_query : QueryPage.state :=
  QueryPage.setQueryText (lit "How do I file an FIR for theft?") QueryPage.initial.

(** That page, mounted, with nothing in flight. *)
Definition theft_page : QueryPage.page :=
  {| QueryPage.ui := theft_query; QueryPage.queries_in_flight := 0;
     QueryPage.tts_in_flight := 0; QueryPage.left := false |}.

(** That page once the form is submitted. *)
Definition theft_submitted : QueryPage.page :=
  {| QueryPage.ui := QueryPage.setIsSubmitting true theft_query;
     QueryPage.queries_in_flight := 1;
     QueryPage.tts_in_flight := 0; QueryPage.left := false |}.

(** An FIR form with only the complainant's name and address filled in. *)
Definition fir_of (name address : jsstring) : DocumentsPage.FIR.details :=
  {| DocumentsPage.FIR.name := name; DocumentsPage.FIR.age := lit "";
     DocumentsPage.FIR.address := address; DocumentsPage.FIR.mobile := lit "";
     DocumentsPage.FIR.email := lit "";
     DocumentsPage.FIR.incident_date := lit "";
     DocumentsPage.FIR.incident_time := lit "";
     DocumentsPage.FIR.incident_place := lit "";
     DocumentsPage.FIR.incident_description := lit "";
     DocumentsPage.FIR.accused_details := lit "";
     DocumentsPage.FIR.witness_details := lit "";
     DocumentsPage.FIR.evidence_list := lit "" |}.

(** The RTI form as [useState] initialises it. *)
Definition blank_rti : DocumentsPage.RTI.details :=
  {| DocumentsPage.RTI.name := lit ""; DocumentsPage.RTI.address := lit "";
     DocumentsPage.RTI.mobile := lit ""; DocumentsPage.RTI.email := lit "";
     DocumentsPage.RTI.department_name := lit "";
     DocumentsPage.RTI.department_address := lit "";
     DocumentsPage.RTI.question_1 := lit "";
     DocumentsPage.RTI.question_2 := lit "";
     DocumentsPage.RTI.question_3 := lit "";
     DocumentsPage.RTI.period := lit "";
     DocumentsPage.RTI.fee := lit "10";
     DocumentsPage.RTI.payment_mode := lit "Postal Order" |}.

(** The documents page on the FIR tab with the given FIR form. *)
Definition documents_with (fir : DocumentsPage.FIR.details) : DocumentsPage.state :=
  {| DocumentsPage.docType := lit "FIR";
     DocumentsPage.language := lit "en";
     DocumentsPage.isGenerating := false;
     DocumentsPage.generatedDoc := None;
     DocumentsPage.firDetails := fir;
     DocumentsPage.rtiDetails := blank_rti |}.

(** The documents page as it opens, and with a name and address typed. *)
Definition blank_documents : DocumentsPage.state :=
  documents_with (fir_of (lit "") (lit "")).

Definition ravi_documents : DocumentsPage.state :=
  documents_with (fir_of (lit "Ravi Kumar") (lit "12 MG Road, Hyderabad")).

Definition morning : jsstring := lit "2024-01-15T10:30:00.000Z".

(** A response page whose query has guidance in Hindi. *)
Definition hindi_response : ResponsePage.state :=
  {| ResponsePage.query :=
       Some {| ResponsePage.response_text := Some (lit "File the FIR at the station.");
               ResponsePage.detected_language := Some (lit "hi") |};
     ResponsePage.isGeneratingSpeech := false;
     ResponsePage.audioRef := None |}.

(** A response page whose query has an empty [response_text]. *)
Definition empty_response : ResponsePage.state :=
  {| ResponsePage.query :=
       Some {| ResponsePage.response_text := Some (lit "");
               ResponsePage.detected_language := Some (lit "hi") |};
     ResponsePage.isGeneratingSpeech := false;
     ResponsePage.audioRef := None |}.

(** Three bytes of audio. *)
Definition some_audio : list Byte.byte := [Byte.x49; Byte.x44; Byte.x33].

End Samples.

Import Samples.

(** ** A stand-in for the engine *)

Module Engine.

(** The engine's answers on the arguments the lemmas below use:
    [new Date('2024-01-15')] is midnight UTC of that day, [new Date(null)]
    is the epoch, and ['yesterday'] is no date. *)
Definition Date_of (v : value) : option Z :=
  match v with
  | VNull => Some 0%Z
  | VString s =>
      if decide (s = lit "2024-01-15") then Some 1705276800000%Z else None
  | _ => None
  end.

Definition format (t : Z) : jsstring :=
  if (t =? 1705276800000)%Z then lit "15 Jan 2024" else lit "01 Jan 1970".

(** The constructor's answer for the locale and options [formatDate] asks
    for: they are accepted. *)
Definition DateTimeFormat (locales : jsstring)
  (options : list (string * jsstring)) : option (Z -> jsstring) :=
  if decide (locales = lit "en-IN") then Some format else None.

End Engine.

(** ** pages/StudentPortal.jsx: the rest of the page *)

Module Portal.

(** What the other handlers of the page do besides the effects above. *)
Inductive action : Type :=
| Did (e : effect)
| Confirm (msg : string)
| HttpPostEmpty (url : jsstring)
| HttpDelete (url : jsstring)
| HttpPatch (url : jsstring) (body : json).

(** The fields of a fetched student and of a fetched case that the cases
    table reads; [assigned_student_id] is [None] when it is [null]. *)
Record student : Type := {
  student_id : jsstring;
  student_name : jsstring
}.

Record case_item : Type := {
  case_id : jsstring;
  status : jsstring;
  assigned_student_id : option jsstring
}.

Record case_form : Type := {
  title : jsstring;
  description : jsstring;
  category : jsstring
}.

(** [{ title: '', description: '', category: 'consumer' }] *)
Definition blank_case : case_form :=
  {| title := lit ""; description := lit ""; category := lit "consumer" |}.

(** The whole component state; [form] is the part [handleAddStudent] and
    [fetchData] work on. *)
Record state : Type := {
  form : StudentPortal.state;
  students : list student;
  cases : list case_item;
  caseDialogOpen : bool;
  newCase : case_form
}.

Definition with_form (f : StudentPortal.state) (st : state) : state :=
  {| form := f; students := students st; cases := cases st;
     caseDialogOpen := caseDialogOpen st; newCase := newCase st |}.

Definition setLoading (b : bool) (st : state) : state :=
  with_form {| StudentPortal.newStudent := StudentPortal.newStudent (form st);
               StudentPortal.studentDialogOpen :=
                 StudentPortal.studentDialogOpen (form st);
               StudentPortal.loading := b |} st.

Definition setLists (s : list student) (c : list case_item) (st : state) : state :=
  {| form := form st; students := s; cases := c;
     caseDialogOpen := caseDialogOpen st; newCase := newCase st |}.

Definition close_case_dialog (st : state) : state :=
  {| form := form st; students := students st; cases := cases st;
     caseDialogOpen := false; newCase := blank_case |}.

Definition case_body (f : case_form) : json :=
  JObject [ ("title", JString (title f));
            ("description", JString (description f));
            ("category", JString (category f)) ]%string.

(** [{ assigned_student_id: studentId, status: 'assigned' }] *)
Definition assign_body (studentId : jsstring) : json :=
  JObject [ ("assigned_student_id", JString studentId);
            ("status", JString (lit "assigned")) ]%string.

Definition is_get (a : action) : bool :=
  match a with
  | Did (HttpGet _) => true
  | _ => false
  end.

(** A request that changes something on the server. *)
Definition is_mutation (a : action) : bool :=
  match a with
  | Did (HttpPost _ _) | HttpPostEmpty _ | HttpDelete _ | HttpPatch _ _ => true
  | _ => false
  end.

Definition is_toast_error (a : action) : bool :=
  match a with
  | Did (ToastError _) => true
  | _ => false
  end.

Section Handlers.
Variable BACKEND_URL : jsstring.

Definition seed_url : jsstring := API BACKEND_URL ++ lit "/seed".
Definition student_url (studentId : jsstring) : jsstring :=
  API BACKEND_URL ++ lit "/students/" ++ studentId.
Definition case_url (caseId : jsstring) : jsstring :=
  API BACKEND_URL ++ lit "/cases/" ++ caseId.

(** [fetchData()] up to its [await], on the whole state. *)
Definition fetchData (st : state) : list action * state :=
  let '(fx, f) := StudentPortal.fetchData BACKEND_URL (form st) in
  (map Did fx, with_form f st).

(** [fetchData()] from the point [Promise.all] settles: it is fulfilled
    when both GETs are, and rejected as soon as one is. *)
Definition fetchData_settled
  (studentsRes : outcome (list student)) (casesRes : outcome (list case_item))
  (st : state) : list action * state :=
  match studentsRes, casesRes with
  | Fulfilled s, Fulfilled c => ([], setLoading false (setLists s c st))
  | _, _ =>
      ([Did (ConsoleError "Error fetching data:");
        Did (ToastError "Failed to load data")],
       setLoading false st)
  end.

(** The shape the five handlers below share:
    [try { await request; toast.success(ok); updates; fetchData() }
     catch { toast.error(failed) }]. *)
Definition try_request (request : action) (ok failed : string)
  (updates : state -> state) (settled : outcome unit) (st : state)
  : list action * state :=
  match settled with
  | Fulfilled _ =>
      let '(fetched, st') := fetchData (updates st) in
      (request :: Did (ToastSuccess ok) :: fetched, st')
  | Rejected => ([request; Did (ToastError failed)], st)
  end.

Definition handleSeedData (st : state) (posted : outcome unit)
  : list action * state :=
  try_request (HttpPostEmpty seed_url)
    "Sample data loaded successfully!" "Failed to seed data"
    (fun s => s) posted st.

(** [handleDeleteStudent(studentId)], with [confirmed] the answer to
    [window.confirm]. *)
Definition handleDeleteStudent (studentId : jsstring) (confirmed : bool)
  (st : state) (deleted : outcome unit) : list action * state :=
  if negb confirmed then
    ([Confirm "Are you sure you want to delete this student?"], st)
  else
    let '(fx, st') :=
      try_request (HttpDelete (student_url studentId))
        "Student deleted" "Failed to delete student" (fun s => s) deleted st in
    (Confirm "Are you sure you want to delete this student?" :: fx, st').

Definition handleAddCase (st : state) (posted : outcome unit)
  : list action * state :=
  let '(fx, st') :=
    try_request (Did (HttpPost (StudentPortal.cases_url BACKEND_URL)
                        (case_body (newCase st))))
      "Case added successfully!" "Failed to add case"
      close_case_dialog posted st in
  (Did PreventDefault :: fx, st').

Definition handleAssignCase (caseId studentId : jsstring) (st : state)
  (patched : outcome unit) : list action * state :=
  try_request (HttpPatch (case_url caseId) (assign_body studentId))
    "Case assigned successfully!" "Failed to assign case"
    (fun s => s) patched st.

Definition handleDeleteCase (caseId : jsstring) (confirmed : bool)
  (st : state) (deleted : outcome unit) : list action * state :=
  if negb confirmed then
    ([Confirm "Are you sure you want to delete this case?"], st)
  else
    let '(fx, st') :=
      try_request (HttpDelete (case_url caseId))
        "Case deleted" "Failed to delete case" (fun s => s) deleted st in
    (Confirm "Are you sure you want to delete this case?" :: fx, st').

End Handlers.

(** The "Assigned To" cell of a case: a select over the students while the
    case is open, otherwise
    [students.find(s => s.id === caseItem.assigned_student_id)?.name || '-']. *)
Inductive assigned_cell : Type :=
| AssignSelect (options : list student)
| AssignedText (text : jsstring).

Definition assigned_name (sts : list student) (assigned : option jsstring)
  : jsstring :=
  match assigned with
  | Some a =>
      match List.find (fun s => if decide (student_id s = a) then true else false) sts with
      | Some s => if truthy_string (student_name s) then student_name s else lit "-"
      | None => lit "-"
      end
  | None => lit "-"
  end.

Definition assigned_to (sts : list student) (c : case_item) : assigned_cell :=
  if decide (status c = lit "open") then AssignSelect sts
  else AssignedText (assigned_name sts (assigned_student_id c)).

End Portal.

(** ** components/VoiceRecorder.jsx *)

Module VoiceRecorder.

Inductive action : Type :=
| Page (e : effect)
| ToastInfo (msg : string)
| ConsoleLog (msg : string)
| GetUserMedia
| RecorderStart
| RecorderStop
| StopTracks
| PostVoiceQuery (url : jsstring) (audio_file : list Byte.byte) (language : jsstring)
| ToastProcessingFailed.

(** The component state with its two refs: whether
    [mediaRecorderRef.current] holds a recorder, and
    [audioChunksRef.current]. *)
Record state : Type := {
  isRecording : bool;
  isSupported : bool;
  isProcessing : bool;
  has_recorder : bool;
  audioChunks : list (list Byte.byte)
}.

Definition initial : state :=
  {| isRecording := false; isSupported := true; isProcessing := false;
     has_recorder := false; audioChunks := [] |}.

(** How [startRecording] goes: through, or into its [catch] with the
    error's [name], before a recorder exists ([getUserMedia] or the
    [MediaRecorder] constructor threw) or at [start()]. *)
Inductive media_outcome : Type :=
| Started
| FailedBeforeRecorder (error_name : jsstring)
| FailedAtStart (error_name : jsstring).

Definition start_failure (error_name : jsstring) : list action :=
  [ Page (ConsoleError "Error starting recording:");
    Page (ToastError
            (if decide (error_name = lit "NotAllowedError")
             then "Microphone access denied. Please allow microphone access."
             else "Failed to start recording. Please check your microphone.")) ].

Definition startRecording (st : state) (media : media_outcome)
  : list action * state :=
  match media with
  | Started =>
      ([GetUserMedia; RecorderStart;
        ToastInfo "Recording... Click stop when finished"],
       {| isRecording := true; isSupported := isSupported st;
          isProcessing := isProcessing st; has_recorder := true;
          audioChunks := [] |})
  | FailedBeforeRecorder error_name =>
      (GetUserMedia :: start_failure error_name,
       {| isRecording := isRecording st; isSupported := false;
          isProcessing := isProcessing st; has_recorder := has_recorder st;
          audioChunks := audioChunks st |})
  | FailedAtStart error_name =>
      (GetUserMedia :: RecorderStart :: start_failure error_name,
       {| isRecording := isRecording st; isSupported := false;
          isProcessing := isProcessing st; has_recorder := true;
          audioChunks := [] |})
  end.

(** [ondataavailable]: a chunk is kept when its size is positive. *)
Definition ondataavailable (chunks : list (list Byte.byte)) (data : list Byte.byte)
  : list (list Byte.byte) :=
  if (0 <? length data)%nat then chunks ++ [data] else chunks.

(** [new Blob(audioChunksRef.current, ...)]: the chunks one after another. *)
Definition blob_of (chunks : list (list Byte.byte)) : list Byte.byte :=
  concat chunks.

Definition stopRecording (st : state) : list action * state :=
  if has_recorder st && isRecording st then
    ([RecorderStop; ToastInfo "Processing audio..."],
     {| isRecording := false; isSupported := isSupported st;
        isProcessing := true; has_recorder := has_recorder st;
        audioChunks := audioChunks st |})
  else ([], st).

Definition toggleRecording (st : state) (media : media_outcome)
  : list action * state :=
  if negb (isSupported st) then
    ([Page (ToastError "Voice recording is not supported in your browser.")], st)
  else if isRecording st then stopRecording st
  else startRecording st media.

Definition setIsProcessing (b : bool) (st : state) : state :=
  {| isRecording := isRecording st; isSupported := isSupported st;
     isProcessing := b; has_recorder := has_recorder st;
     audioChunks := audioChunks st |}.

(** The recorder's [dataavailable] event on the component. *)
Definition dataavailable (st : state) (data : list Byte.byte) : state :=
  {| isRecording := isRecording st; isSupported := isSupported st;
     isProcessing := isProcessing st; has_recorder := has_recorder st;
     audioChunks := ondataavailable (audioChunks st) data |}.

(** The states the component can be in: whatever order the handlers and
    the recorder's events come in. *)
Inductive reachable : state -> Prop :=
| reachable_initial : reachable initial
| reachable_start st media :
    reachable st -> reachable (snd (startRecording st media))
| reachable_stop st : reachable st -> reachable (snd (stopRecording st))
| reachable_data st data : reachable st -> reachable (dataavailable st data)
| reachable_processed st : reachable st -> reachable (setIsProcessing false st).

(** What the component renders: the notice, or the two buttons with their
    [disabled] attributes. *)
Inductive view : Type :=
| Unsupported
| Buttons (start_disabled stop_disabled : bool).

Definition render (st : state) : view :=
  if negb (isSupported st) then Unsupported
  else Buttons (isRecording st || isProcessing st)
               (negb (isRecording st) || isProcessing st).

Section ProcessAudio.
Context {S : Type}.
Variable BACKEND_URL : jsstring.
(** The props: [onTranscript], and [onVoiceResponse] when it is passed;
    each is run on the parent's state up to its first [await]. *)
Variable onTranscript : jsstring -> S -> list effect * S.
Variable onVoiceResponse :
  option (QueryPage.voice_response -> S -> list effect * S).

Definition voice_url : jsstring := API BACKEND_URL ++ lit "/voice-query".

(** [processAudio(audioBlob)], with [language] the prop and [uploaded] the
    way the POST settles: [response.data] when it succeeds, [None] for a
    [null] or [undefined] one (destructuring it throws). *)
Definition processAudio (language : jsstring) (audioBlob : list Byte.byte)
  (uploaded : outcome (option QueryPage.voice_response))
  (st : state) (parent : S) : list action * state * S :=
  let post := PostVoiceQuery voice_url audioBlob language in
  match uploaded with
  | Fulfilled (Some result) =>
      if truthy_string (QueryPage.query_text result) then
        let '(fx1, parent1) := onTranscript (QueryPage.query_text result) parent in
        let '(fx2, parent2) :=
          match onVoiceResponse with
          | Some callback => callback result parent1
          | None => ([], parent1)
          end in
        (post :: ConsoleLog "Voice query result:" :: map Page fx1
           ++ map Page fx2 ++ [Page (ToastSuccess "Voice processed successfully!")],
         setIsProcessing false st, parent2)
      else
        ([post; ConsoleLog "Voice query result:";
          Page (ToastError "No speech detected. Please try again.")],
         setIsProcessing false st, parent)
  | _ =>
      ([post; Page (ConsoleError "Error processing audio:"); ToastProcessingFailed],
       setIsProcessing false st, parent)
  end.

(** [onstop]: the blob of the chunks is processed, then the tracks are
    stopped. *)
Definition onstop (language : jsstring)
  (uploaded : outcome (option QueryPage.voice_response))
  (st : state) (parent : S) : list action * state * S :=
  let '(fx, st', parent') :=
    processAudio language (blob_of (audioChunks st)) uploaded st parent in
  (ConsoleLog "Audio blob size:" :: fx ++ [StopTracks], st', parent').
End ProcessAudio.

End VoiceRecorder.

(** ** pages/QueryPage.jsx: the voice callbacks *)

Module QueryVoice.

Section Handlers.
Variable BACKEND_URL : jsstring.

(** [handleVoiceTranscript(transcript)] *)
Definition handleVoiceTranscript (transcript : jsstring) (st : QueryPage.state)
  : list effect * QueryPage.state :=
  ([], QueryPage.setQueryText transcript st).

(** One whole run of [handleVoiceResponse(response)]. *)
Definition handleVoiceResponse (r : QueryPage.voice_response)
  (st : QueryPage.state) (spoken : outcome (list Byte.byte))
  : list effect * QueryPage.state :=
  let '(fx, st1) := QueryPage.handleVoiceResponse_start BACKEND_URL r st in
  let '(fx', st2) := QueryPage.play_tts_resume spoken st1 in
  (fx ++ fx', st2).

(** The recorder as the query page mounts it:
    [<VoiceRecorder language={language} onTranscript={handleVoiceTranscript}
       onVoiceResponse={handleVoiceResponse} />]. *)
Definition processAudio (language : jsstring) (audioBlob : list Byte.byte)
  (uploaded : outcome (option QueryPage.voice_response))
  (rec : VoiceRecorder.state) (st : QueryPage.state)
  : list VoiceRecorder.action * VoiceRecorder.state * QueryPage.state :=
  VoiceRecorder.processAudio BACKEND_URL handleVoiceTranscript
    (Some (QueryPage.handleVoiceResponse_start BACKEND_URL))
    language audioBlob uploaded rec st.
End Handlers.

End QueryVoice.

(** ** pages/ResponsePage.jsx: loading the query *)

Module ResponseView.

(** The state of the page around the part [playTextToSpeech] works on. *)
Record state : Type := {
  page : ResponsePage.state;
  loading : bool;
  error : option string
}.

(** The page as it mounts. *)
Definition initial : state :=
  {| page := {| ResponsePage.query := None;
                ResponsePage.isGeneratingSpeech := false;
                ResponsePage.audioRef := None |};
     loading := true; error := None |}.

Definition setQuery (q : option ResponsePage.query_record) (st : state) : state :=
  {| page := {| ResponsePage.query := q;
                ResponsePage.isGeneratingSpeech :=
                  ResponsePage.isGeneratingSpeech (page st);
                ResponsePage.audioRef := ResponsePage.audioRef (page st) |};
     loading := loading st; error := error st |}.

Definition setError (e : string) (st : state) : state :=
  {| page := page st; loading := loading st; error := Some e |}.

Definition setLoading (b : bool) (st : state) : state :=
  {| page := page st; loading := b; error := error st |}.

Section Effect.
Variable BACKEND_URL : jsstring.

Definition query_url (queryId : jsstring) : jsstring :=
  API BACKEND_URL ++ lit "/queries/" ++ queryId.

(** The mount effect: [if (queryId) fetchQuery()], with [queryId] the route
    parameter ([None] when there is none) and [fetched] the way the GET
    settles ([response.data], [None] for [null]). *)
Definition fetchQuery (queryId : option jsstring)
  (fetched : outcome (option ResponsePage.query_record)) (st : state)
  : list effect * state :=
  match queryId with
  | Some id =>
      if truthy_string id then
        match fetched with
        | Fulfilled data =>
            ([HttpGet (query_url id)], setLoading false (setQuery data st))
        | Rejected =>
            ([HttpGet (query_url id); ConsoleError "Error fetching query:"],
             setLoading false (setError "Failed to load query response" st))
        end
      else ([], st)
  | None => ([], st)
  end.
End Effect.

(** What the page renders: the spinner, the "Query Not Found" card with its
    message, or the query with its Play button. *)
Inductive view : Type :=
| Spinner
| NotFound (message : string)
| Content (q : ResponsePage.query_record) (play_disabled : bool).

Definition render (st : state) : view :=
  let shown_error :=
    match error st with
    | Some e => if String.eqb e "" then None else Some e
    | None => None
    end in
  if loading st then Spinner
  else match shown_error, ResponsePage.query (page st) with
       | Some e, _ => NotFound e
       | None, None => NotFound "The requested query could not be found."
       | None, Some q => Content q (ResponsePage.isGeneratingSpeech (page st))
       end.

End ResponseView.

(** ** components/Navbar.jsx *)

Module Navbar.

Record nav_link : Type := {
  path : jsstring;
  label : jsstring
}.

Definition navLinks : list nav_link :=
  [ {| path := lit "/"; label := lit "Home" |};
    {| path := lit "/query"; label := lit "Legal Query" |};
    {| path := lit "/students"; label := lit "Student Portal" |};
    {| path := lit "/documents"; label := lit "Documents" |} ].

(** [isActive(path)], with [pathname] of [useLocation()]. *)
Definition isActive (pathname path : jsstring) : bool :=
  if decide (pathname = path) then true else false.

(** The links rendered as active. *)
Definition active_links (pathname : jsstring) : list nav_link :=
  List.filter (fun l => isActive pathname (path l)) navLinks.

Record language : Type := {
  code : jsstring;
  flag : jsstring
}.

Definition languages : list language :=
  [ {| code := lit "en"; flag := lit "EN" |};
    {| code := lit "hi"; flag := lit "HI" |};
    {| code := lit "te"; flag := lit "TE" |} ].

Record state : Type := {
  mobileMenuOpen : bool;
  currentLang : jsstring
}.

Definition initial : state :=
  {| mobileMenuOpen := false; currentLang := lit "en" |}.

(** The clicks the bar handles: the [i]-th item of the language menu (there
    is one per entry of [languages]), the menu button, a link of the mobile
    menu (rendered while the menu is open). *)
Inductive event : Type :=
| PickLanguage (i : nat)
| ToggleMenu
| FollowMobileLink.

Definition step (st : state) (e : event) : option state :=
  match e with
  | PickLanguage i =>
      match nth_error languages i with
      | Some lang =>
          Some {| mobileMenuOpen := mobileMenuOpen st; currentLang := code lang |}
      | None => None
      end
  | ToggleMenu =>
      Some {| mobileMenuOpen := negb (mobileMenuOpen st);
              currentLang := currentLang st |}
  | FollowMobileLink =>
      if mobileMenuOpen st
      then Some {| mobileMenuOpen := false; currentLang := currentLang st |}
      else None
  end.

Inductive reachable : state -> Prop :=
| reachable_initial : reachable initial
| reachable_step st e st' : reachable st -> step st e = Some st' -> reachable st'.

(** [languages.find(l => l.code === currentLang)?.flag] *)
Definition shown_flag (st : state) : option jsstring :=
  option_map flag
    (List.find (fun l => if decide (code l = currentLang st) then true else false)
       languages).

End Navbar.

(** ** Words and sample inputs for the further properties *)

Module Words.

(** A skill as the posted array holds it: not empty, no white space at
    either end, no comma. *)
Definition clean_skill (s : jsstring) : bool :=
  truthy_string s && no_surrounding_space s && free_of comma s.

Definition succeeded {A : Type} (o : outcome A) : bool :=
  match o with
  | Fulfilled _ => true
  | Rejected => false
  end.

Definition is_upload (a : VoiceRecorder.action) : bool :=
  match a with
  | VoiceRecorder.PostVoiceQuery _ _ _ => true
  | _ => false
  end.

(** An effect on an audio element. *)
Definition is_audio (e : effect) : bool :=
  match e with
  | AudioPause _ | AudioPlay _ => true
  | _ => false
  end.

(** A form whose skills input is the given string. *)
Definition with_skills (s : jsstring) : StudentPortal.student_form :=
  {| StudentPortal.name := lit "Asha Rao";
     StudentPortal.email := lit "asha@college.edu";
     StudentPortal.college := lit "NLU Hyderabad";
     StudentPortal.skills := s |}.

(** The portal with two students, one open and one assigned case, and the
    dialogs as [asha_student] has them. *)
Definition two_students : list Portal.student :=
  [ {| Portal.student_id := lit "s1"; Portal.student_name := lit "Asha Rao" |};
    {| Portal.student_id := lit "s2"; Portal.student_name := lit "" |} ].

Definition busy_portal : Portal.state :=
  {| Portal.form := asha_student;
     Portal.students := two_students;
     Portal.cases :=
       [ {| Portal.case_id := lit "c1"; Portal.status := lit "open";
            Portal.assigned_student_id := None |};
         {| Portal.case_id := lit "c2"; Portal.status := lit "assigned";
            Portal.assigned_student_id := Some (lit "s1") |} ];
     Portal.caseDialogOpen := true;
     Portal.newCase :=
       {| Portal.title := lit ""; Portal.description := lit "";
          Portal.category := lit "rti" |} |}.

(** A voice query the server understood. *)
Definition theft_voice : QueryPage.voice_response :=
  {| QueryPage.query_text := lit "How do I file an FIR for theft?";
     QueryPage.voice_language := lit "en";
     QueryPage.answer := lit "Go to the nearest police station." |}.

(** A recorder that is recording, with two chunks so far. *)
Definition recording : VoiceRecorder.state :=
  {| VoiceRecorder.isRecording := true; VoiceRecorder.isSupported := true;
     VoiceRecorder.isProcessing := false; VoiceRecorder.has_recorder := true;
     VoiceRecorder.audioChunks := [[Byte.x1a; Byte.x45]; [Byte.xdf]] |}.

End Words.

Import Words.

(** * Properties *)

(** ** Strings *)

Lemma truthy_string_spec (s : jsstring) : truthy_string s = true <-> s <> [].
Proof. destruct s; simpl; split; congruence. Qed.

Lemma trimStart_starts_clean (s : jsstring) : starts_clean (trimStart s) = true.
Proof.
  induction s as [|c s IH]; simpl; [reflexivity|].
  destruct (is_white_space c) eqn:Hc; [exact IH|].
  simpl. now rewrite Hc.
Qed.

(** Stripping the front of a string keeps a last code unit that is not
    white space. *)
Lemma trimStart_keeps_last (s : jsstring) (c : N) :
  is_white_space c = false -> exists t, trimStart (s ++ [c]) = t ++ [c].
Proof.
  intros Hc. induction s as [|x s [t Ht]]; simpl.
  - rewrite Hc. now exists [].
  - destruct (is_white_space x).
    + now exists t.
    + now exists (x :: s).
Qed.

Lemma trimEnd_ends_clean (s : jsstring) : starts_clean (rev (trimEnd s)) = true.
Proof. unfold trimEnd. rewrite rev_involutive. apply trimStart_starts_clean. Qed.

Lemma trimEnd_keeps_first (c : N) (s : jsstring) :
  is_white_space c = false -> exists t, trimEnd (c :: s) = c :: t.
Proof.
  intros Hc. unfold trimEnd. simpl rev.
  destruct (trimStart_keeps_last (rev s) c Hc) as [t ->].
  exists (rev t). now rewrite rev_app_distr.
Qed.

Lemma trim_no_surrounding_space (s : jsstring) :
  no_surrounding_space (trim s) = true.
Proof.
  unfold no_surrounding_space, trim.
  rewrite trimEnd_ends_clean, andb_true_r.
  pose proof (trimStart_starts_clean s) as Hs.
  destruct (trimStart s) as [|c t]; [reflexivity|].
  simpl in Hs. apply negb_true_iff in Hs.
  destruct (trimEnd_keeps_first c t Hs) as [u ->].
  simpl. now rewrite Hs.
Qed.

Lemma split_not_nil (sep : N) (s : jsstring) : split sep s <> [].
Proof.
  induction s as [|c s IH]; simpl; [discriminate|].
  destruct (c =? sep); [discriminate|].
  destruct (split sep s); [contradiction | discriminate].
Qed.

(** Joining the segments of a string gives the string back. *)
Lemma join_split (sep : N) (s : jsstring) : join sep (split sep s) = s.
Proof.
  induction s as [|c s IH]; simpl; [reflexivity|].
  destruct (c =? sep) eqn:Hc.
  - apply N.eqb_eq in Hc. subst c.
    pose proof (split_not_nil sep s) as Hne.
    destruct (split sep s) as [|seg rest]; [contradiction|].
    simpl in *. now rewrite IH.
  - pose proof (split_not_nil sep s) as Hne.
    destruct (split sep s) as [|seg rest]; [contradiction|].
    destruct rest; simpl in *; now rewrite IH.
Qed.

(** No segment contains the separator. *)
Lemma split_free_of (sep : N) (s : jsstring) :
  forallb (free_of sep) (split sep s) = true.
Proof.
  induction s as [|c s IH]; simpl; [reflexivity|].
  destruct (c =? sep) eqn:Hc; simpl; [exact IH|].
  destruct (split sep s) as [|seg rest]; simpl in *.
  - now rewrite Hc.
  - rewrite Hc. exact IH.
Qed.

(** The segments are the only way to cut the string at its separators. *)
Lemma split_join (sep : N) (segs : list jsstring) :
  segs <> [] -> forallb (free_of sep) segs = true ->
  split sep (join sep segs) = segs.
Proof.
  induction segs as [|seg rest IH]; [congruence|]. intros _ Hfree.
  simpl in Hfree. apply andb_true_iff in Hfree as [Hseg Hrest].
  destruct rest as [|seg' rest].
  - simpl. clear IH Hrest. induction seg as [|c seg IHs]; [reflexivity|].
    simpl in Hseg. apply andb_true_iff in Hseg as [Hc Hseg].
    apply negb_true_iff in Hc. simpl. rewrite Hc, (IHs Hseg). reflexivity.
  - specialize (IH ltac:(discriminate) Hrest).
    change (join sep (seg :: seg' :: rest))
      with (seg ++ sep :: join sep (seg' :: rest)).
    set (tail := join sep (seg' :: rest)) in *.
    induction seg as [|c seg IHs]; simpl.
    + rewrite N.eqb_refl. now rewrite IH.
    + simpl in Hseg. apply andb_true_iff in Hseg as [Hc Hseg].
      apply negb_true_iff in Hc. rewrite Hc, (IHs Hseg). reflexivity.
Qed.

(** Searching for a string of one code unit is searching for that unit. *)
Lemma includes_unit (a : N) (s : jsstring) :
  includes [a] s = true <-> In a s.
Proof.
  induction s as [|c s IH].
  - cbn. split; [discriminate | tauto].
  - cbn [includes starts_with In].
    rewrite orb_true_iff, andb_true_iff, IH, N.eqb_eq.
    split.
    + intros [[Hc _] | H]; [left; now symmetry | now right].
    + intros [Hc | H]; [left; split; [now symmetry | now destruct s] | now right].
Qed.

(** ** utils/helpers.js: the lookup tables *)

Lemma get_missing (own : gmap (list N) value) (k : jsstring) :
  own !! k = None -> Object_prototype !! k = None -> get own k = VUndefined.
Proof. unfold get. now intros -> ->. Qed.

(** A key that is not written in an object literal is not an own property. *)
Lemma object_literal_None (props : list (string * jsstring)) (k : jsstring) :
  k ∉ map (fun p => lit (fst p)) props -> object_literal props !! k = None.
Proof.
  intros Hk. unfold object_literal. apply not_elem_of_list_to_map_1.
  intros Hin. apply Hk. clear Hk.
  induction props as [|p props IH]; simpl in *; [exact Hin|].
  apply elem_of_cons in Hin as [-> | Hin]; [left | right; auto].
Qed.

Ltac each_key H :=
  repeat (apply elem_of_cons in H as [-> | H]; [vm_compute; reflexivity|]);
  now apply elem_of_nil in H.

(** A known category has its own style class, [category-<name>]. *)
Lemma getCategoryStyle_known (k : jsstring) :
  k ∈ categories ->
  Helpers.getCategoryStyle k = VString (lit "category-" ++ k).
Proof. intros H. unfold categories in H. each_key H. Qed.

(** Any other string that [Object.prototype] does not define gets the
    general style. *)
Lemma getCategoryStyle_default (k : jsstring) :
  k ∉ categories -> Object_prototype !! k = None ->
  Helpers.getCategoryStyle k = VString (lit "category-general").
Proof.
  intros Hk Hp. unfold Helpers.getCategoryStyle.
  rewrite (get_missing Helpers.category_styles k); [reflexivity | | exact Hp].
  now apply object_literal_None.
Qed.

Lemma getStatusStyle_known (k : jsstring) :
  k ∈ statuses -> Helpers.getStatusStyle k = VString (lit "status-" ++ k).
Proof. intros H. unfold statuses in H. each_key H. Qed.

Lemma getStatusStyle_default (k : jsstring) :
  k ∉ statuses -> Object_prototype !! k = None ->
  Helpers.getStatusStyle k = VString (lit "status-open").
Proof.
  intros Hk Hp. unfold Helpers.getStatusStyle.
  rewrite (get_missing Helpers.status_styles k); [reflexivity | | exact Hp].
  now apply object_literal_None.
Qed.

(** An unknown category or language code that [Object.prototype] does not
    define is its own label. *)
Lemma getCategoryLabel_unknown (k : jsstring) :
  k ∉ categories -> Object_prototype !! k = None ->
  Helpers.getCategoryLabel k = VString k.
Proof.
  intros Hk Hp. unfold Helpers.getCategoryLabel.
  rewrite (get_missing Helpers.category_labels k); [reflexivity | | exact Hp].
  now apply object_literal_None.
Qed.

Lemma getLanguageLabel_unknown (k : jsstring) :
  k ∉ language_codes -> Object_prototype !! k = None ->
  Helpers.getLanguageLabel k = VString k.
Proof.
  intros Hk Hp. unfold Helpers.getLanguageLabel.
  rewrite (get_missing Helpers.language_labels k); [reflexivity | | exact Hp].
  now apply object_literal_None.
Qed.

Lemma constructor_not_known :
  (lit "constructor" ∉ categories) /\ (lit "constructor" ∉ statuses) /\
  (lit "constructor" ∉ language_codes).
Proof.
  repeat split; intros H;
    repeat (apply elem_of_cons in H as [H | H]; [discriminate H|]);
    now apply elem_of_nil in H.
Qed.

(** C2: the style lookups at the string ['constructor'], which is none of
    the seven categories and none of the three statuses: [styles[category]]
    finds the function inherited from [Object.prototype], which is truthy,
    so the lookups return it and not ['category-general'] or
    ['status-open']. *)
Theorem style_lookup_inherited_key :
  (lit "constructor" ∉ categories) /\
  Helpers.getCategoryStyle (lit "constructor") = VBuiltin "Object" /\
  Helpers.getCategoryStyle (lit "constructor") <> VString (lit "category-general") /\
  (lit "constructor" ∉ statuses) /\
  Helpers.getStatusStyle (lit "constructor") = VBuiltin "Object" /\
  Helpers.getStatusStyle (lit "constructor") <> VString (lit "status-open").
Proof.
  destruct constructor_not_known as (Hc & Hs & _).
  repeat split; try assumption; try (vm_compute; reflexivity);
    vm_compute; discriminate.
Qed.

(** C9: the label lookups at the string ['constructor'], which is none of
    their known keys: [labels[category]] finds the function inherited from
    [Object.prototype], so the lookups return that function and not their
    input. *)
Theorem label_lookup_inherited_key :
  (lit "constructor" ∉ categories) /\
  Helpers.getCategoryLabel (lit "constructor") = VBuiltin "Object" /\
  Helpers.getCategoryLabel (lit "constructor") <> VString (lit "constructor") /\
  (lit "constructor" ∉ language_codes) /\
  Helpers.getLanguageLabel (lit "constructor") = VBuiltin "Object" /\
  Helpers.getLanguageLabel (lit "constructor") <> VString (lit "constructor").
Proof.
  destruct constructor_not_known as (Hc & _ & Hl).
  repeat split; try assumption; try (vm_compute; reflexivity);
    vm_compute; discriminate.
Qed.

(** ** utils/helpers.js: formatDate *)


(** On an engine that rejects the locale or the options, formatting a
    valid date throws. *)
Lemma formatDate_throws_without_formatter
  (Date_of : value -> option Z)
  (DateTimeFormat : jsstring -> list (string * jsstring) -> option (Z -> jsstring))
  (v : value) (t : Z) :
  DateTimeFormat (lit "en-IN") Helpers.date_options = None ->
  ToBoolean v = true -> Date_of v = Some t ->
  Helpers.formatDate Date_of DateTimeFormat v = Helpers.Thrown "RangeError".
Proof.
  intros Hf Hv Ht. unfold Helpers.formatDate, Helpers.toLocaleDateString.
  now rewrite Hv, Ht, Hf.
Qed.




(** ** pages/StudentPortal.jsx: handleAddStudent *)

Lemma valid_form_checks (f : StudentPortal.student_form) :
  valid_form f <->
  truthy_string (trim (StudentPortal.name f)) = true /\
  truthy_string (trim (StudentPortal.email f)) = true /\
  includes (lit "@") (StudentPortal.email f) = true /\
  truthy_string (trim (StudentPortal.college f)) = true.
Proof.
  unfold valid_form. change (lit "@") with [N_of_ascii "@"].
  rewrite !truthy_string_spec, includes_unit. tauto.
Qed.

Lemma is_post_to_refl (url : jsstring) (body : json) :
  is_post_to url (HttpPost url body) = true.
Proof. unfold is_post_to. now destruct (decide (url = url)). Qed.

(** C1: [handleAddStudent] issues the POST to [/api/students] exactly when
    the form passes the client-side validation (the trimmed name, email and
    college are not empty and the email passes the handler's check for a
    valid address, which is that it contains ['@']); when a check fails the
    handler shows an error toast, makes no HTTP request and leaves the state
    as it was. *)
Theorem handleAddStudent_posts_iff_valid
  (BACKEND_URL : jsstring) (st : StudentPortal.state) (posted : outcome unit) :
  let run := StudentPortal.handleAddStudent BACKEND_URL st posted in
  (existsb (is_post_to (StudentPortal.students_url BACKEND_URL)) (fst run) = true
   <-> valid_form (StudentPortal.newStudent st)) /\
  (~ valid_form (StudentPortal.newStudent st) ->
   existsb is_error_toast (fst run) = true /\
   existsb is_request (fst run) = false /\
   snd run = st).
Proof.
  intros run. subst run. rewrite valid_form_checks.
  unfold StudentPortal.handleAddStudent.
  destruct (truthy_string (trim (StudentPortal.name (StudentPortal.newStudent st))));
    [|simpl; intuition congruence].
  destruct (truthy_string (trim (StudentPortal.email (StudentPortal.newStudent st))));
    [|simpl; intuition congruence].
  destruct (includes (lit "@") (StudentPortal.email (StudentPortal.newStudent st)));
    [|simpl; intuition congruence].
  destruct (truthy_string (trim (StudentPortal.college (StudentPortal.newStudent st))));
    [|simpl; intuition congruence].
  cbn [negb].
  destruct posted; cbn [StudentPortal.fetchData fst snd app existsb];
    rewrite is_post_to_refl; cbn [orb]; intuition congruence.
Qed.

Lemma handleAddStudent_posts_iff_valid_witness :
  (let run := StudentPortal.handleAddStudent localhost blank_student Rejected in
   existsb is_error_toast (fst run) = true /\
   existsb is_request (fst run) = false /\
   snd run = blank_student) /\
  existsb (is_post_to (StudentPortal.students_url localhost))
    (fst (StudentPortal.handleAddStudent localhost asha_student (Fulfilled tt)))
  = true.
Proof.
  split.
  - apply (handleAddStudent_posts_iff_valid localhost blank_student Rejected).
    intros (H & _). apply H. reflexivity.
  - apply (handleAddStudent_posts_iff_valid localhost asha_student (Fulfilled tt)).
    repeat split; try (vm_compute; discriminate).
    vm_compute. do 4 right. left. reflexivity.
Defined.

Example asha_skills :
  StudentPortal.skillsArray (StudentPortal.newStudent asha_student) =
    [lit "Criminal Law"; lit "RTI"; lit "Drafting"].
Proof. vm_compute. reflexivity. Qed.

Example split_edge_cases :
  split comma (lit "") = [lit ""] /\
  split comma (lit ",") = [lit ""; lit ""] /\
  split comma (lit "a,,b") = [lit "a"; lit ""; lit "b"].
Proof. repeat split. Qed.

Example trim_edge_cases :
  trim (lit "  a b  ") = lit "a b" /\ trim (lit "   ") = lit "" /\
  trim [0xA0; 0x61; 0x2028] = lit "a".
Proof. repeat split. Qed.

(** C10: the skills array posted with a new student: a valid form makes
    [handleAddStudent] send exactly one POST to [/api/students], and its
    body, like every body the handler ever posts, is the form with its
    [skills] replaced by the array of the comma-separated segments of the
    skills input (the segments join back to the input with commas and hold
    no comma themselves), each trimmed, the empty ones dropped; so no element
    of the array is empty or has white space at either end. *)
Theorem posted_skills_are_trimmed_segments
  (BACKEND_URL : jsstring) (st : StudentPortal.state) (posted : outcome unit) :
  let f := StudentPortal.newStudent st in
  let segments := split comma (StudentPortal.skills f) in
  let posted_skills := List.filter truthy_string (map trim segments) in
  let body :=
    JObject [ ("name", JString (StudentPortal.name f));
              ("email", JString (StudentPortal.email f));
              ("college", JString (StudentPortal.college f));
              ("skills", JArray (map JString posted_skills)) ]%string in
  let fx := fst (StudentPortal.handleAddStudent BACKEND_URL st posted) in
  (valid_form f ->
   List.filter (is_post_to (StudentPortal.students_url BACKEND_URL)) fx =
     [HttpPost (StudentPortal.students_url BACKEND_URL) body]) /\
  (forall url sent, In (HttpPost url sent) fx ->
     url = StudentPortal.students_url BACKEND_URL /\ sent = body) /\
  join comma segments = StudentPortal.skills f /\
  forallb (free_of comma) segments = true /\
  Forall (fun s => s <> [] /\ no_surrounding_space s = true) posted_skills.
Proof.
  intros f segments posted_skills body fx. split; [|split; [|split; [|split]]].
  - intros Hv. apply valid_form_checks in Hv as (Hn & He & Ha & Hc).
    subst fx. unfold StudentPortal.handleAddStudent. fold f.
    rewrite Hn, He, Ha, Hc. cbn [negb].
    destruct posted; cbn [StudentPortal.fetchData fst app List.filter];
      rewrite is_post_to_refl; reflexivity.
  - intros url sent. subst fx. unfold StudentPortal.handleAddStudent. fold f.
    repeat match goal with
           | |- context [if negb ?b then _ else _] =>
               destruct b; cbn [negb];
               [|cbn; intros [H | [H | []]]; discriminate H]
           end.
    destruct posted; cbn; intros H;
      repeat (destruct H as [H | H]; try discriminate H);
      try contradiction; injection H as <- <-; split; reflexivity.
  - apply join_split.
  - apply split_free_of.
  - subst posted_skills. apply List.Forall_forall. intros s Hs.
    apply List.filter_In in Hs as [Hin Ht]. split.
    + now apply truthy_string_spec.
    + apply List.in_map_iff in Hin as (seg & <- & _).
      apply trim_no_surrounding_space.
Qed.

Lemma posted_skills_are_trimmed_segments_witness :
  List.filter (is_post_to (StudentPortal.students_url localhost))
    (fst (StudentPortal.handleAddStudent localhost asha_student (Fulfilled tt))) =
    [HttpPost (StudentPortal.students_url localhost)
       (JObject [ ("name", JString (lit "Asha Rao"));
                  ("email", JString (lit "asha@college.edu"));
                  ("college", JString (lit "NLU Hyderabad"));
                  ("skills", JArray [JString (lit "Criminal Law");
                                     JString (lit "RTI");
                                     JString (lit "Drafting")]) ]%string)].
Proof.
  apply (posted_skills_are_trimmed_segments localhost asha_student (Fulfilled tt)).
  repeat split; try (vm_compute; discriminate).
  vm_compute. do 4 right. left. reflexivity.
Defined.

(** ** pages/QueryPage.jsx: handleSubmit *)

Lemma handleSubmit_start_empty (B : jsstring) (st : QueryPage.state) :
  trim (QueryPage.queryText st) = [] ->
  QueryPage.handleSubmit_start B st =
    ([PreventDefault; ToastError "Please enter your legal query"], st, false).
Proof. unfold QueryPage.handleSubmit_start. now intros ->. Qed.

Lemma handleSubmit_start_text (B : jsstring) (st : QueryPage.state) :
  trim (QueryPage.queryText st) <> [] ->
  QueryPage.handleSubmit_start B st =
    ([PreventDefault; HttpPost (QueryPage.queries_url B) (QueryPage.query_body st)],
     QueryPage.setIsSubmitting true st, true).
Proof.
  intros H. apply truthy_string_spec in H.
  unfold QueryPage.handleSubmit_start. now rewrite H.
Qed.

Lemma handleSubmit_resume_posts_nothing
  (posted : outcome QueryPage.response_data) (st : QueryPage.state) :
  existsb is_request (fst (QueryPage.handleSubmit_resume posted st)) = false.
Proof. destruct posted as [[|id]|]; reflexivity. Qed.

(** C3: [handleSubmit] POSTs to [/api/queries] exactly when the trimmed
    query text is not empty, and what it posts is [{query_text, language}]
    of the form; on empty or white-space-only input it shows an error toast
    and makes no request; when the POST succeeds with an object, it
    navigates to [/response/<id>] with the [id] of that object. *)
Theorem handleSubmit_posts_iff_text
  (BACKEND_URL : jsstring) (st : QueryPage.state)
  (posted : outcome QueryPage.response_data) :
  let fx := fst (QueryPage.handleSubmit BACKEND_URL st posted) in
  (existsb (is_post_to (QueryPage.queries_url BACKEND_URL)) fx = true
   <-> trim (QueryPage.queryText st) <> []) /\
  (trim (QueryPage.queryText st) <> [] ->
   List.filter is_request fx =
     [HttpPost (QueryPage.queries_url BACKEND_URL)
        (JObject [ ("query_text", JString (QueryPage.queryText st));
                   ("language", JString (QueryPage.language st)) ]%string)]) /\
  (trim (QueryPage.queryText st) = [] ->
   existsb is_error_toast fx = true /\ existsb is_request fx = false) /\
  (trim (QueryPage.queryText st) <> [] ->
   forall id, posted = Fulfilled (QueryPage.DataObject (Some id)) ->
   List.filter QueryPage.navigates fx = [Navigate (lit "/response/" ++ id)]).
Proof.
  intros fx. subst fx. unfold QueryPage.handleSubmit.
  destruct (trim (QueryPage.queryText st)) as [|c t] eqn:Ht.
  - rewrite (handleSubmit_start_empty _ _ Ht). cbn.
    repeat split; try congruence; discriminate.
  - assert (Hne : trim (QueryPage.queryText st) <> []) by (rewrite Ht; discriminate).
    rewrite (handleSubmit_start_text _ _ Hne).
    destruct (QueryPage.handleSubmit_resume posted _) as [fx' st2] eqn:Hres.
    cbn [fst app existsb].
    rewrite is_post_to_refl. cbn [orb].
    pose proof (handleSubmit_resume_posts_nothing posted
                  (QueryPage.setIsSubmitting true st)) as Hnone.
    rewrite Hres in Hnone. cbn [fst] in Hnone.
    repeat split; try congruence; try discriminate.
    + intros _. cbn [List.filter is_request]. f_equal.
      clear Hres. induction fx' as [|e fx' IH]; [reflexivity|].
      cbn in Hnone. apply orb_false_iff in Hnone as [He Hfx].
      cbn. rewrite He. now apply IH.
    + intros _ id ->. cbn in Hres. injection Hres as <- _. reflexivity.
Qed.

Lemma handleSubmit_posts_iff_text_witness :
  (let fx := fst (QueryPage.handleSubmit localhost blank_query Rejected) in
   existsb is_error_toast fx = true /\ existsb is_request fx = false) /\
  (let fx := fst (QueryPage.handleSubmit localhost theft_query
                    (Fulfilled (QueryPage.DataObject (Some (lit "q1"))))) in
   List.filter is_request fx =
     [HttpPost (QueryPage.queries_url localhost)
        (JObject [ ("query_text", JString (lit "How do I file an FIR for theft?"));
                   ("language", JString (lit "en")) ]%string)] /\
   List.filter QueryPage.navigates fx = [Navigate (lit "/response/q1")]).
Proof.
  split.
  - apply (handleSubmit_posts_iff_text localhost blank_query Rejected).
    reflexivity.
  - pose proof (handleSubmit_posts_iff_text localhost theft_query
                  (Fulfilled (QueryPage.DataObject (Some (lit "q1")))))
      as (_ & Hpost & _ & Hnav).
    assert (Hne : trim (QueryPage.queryText theft_query) <> [])
      by (vm_compute; discriminate).
    split; [exact (Hpost Hne) | exact (Hnav Hne (lit "q1") eq_refl)].
Defined.

(** ** pages/QueryPage.jsx: one submission at a time *)

Lemma tts_url_not_queries (B : jsstring) :
  QueryPage.tts_url B <> QueryPage.queries_url B.
Proof.
  unfold QueryPage.tts_url, QueryPage.queries_url.
  intros H. apply app_inv_head in H. discriminate H.
Qed.

Lemma tts_is_no_query_post (B : jsstring) (body : json) :
  is_post_to (QueryPage.queries_url B) (HttpPost (QueryPage.tts_url B) body) = false.
Proof.
  unfold is_post_to.
  destruct (decide (QueryPage.tts_url B = QueryPage.queries_url B)) as [H|];
    [now apply tts_url_not_queries in H | reflexivity].
Qed.

Lemma submit_enabled_inv (st : QueryPage.state) :
  QueryPage.submit_disabled st = false ->
  QueryPage.isSubmitting st = false /\ trim (QueryPage.queryText st) <> [].
Proof.
  unfold QueryPage.submit_disabled. intros H.
  apply orb_false_iff in H as [Hs Ht]. split; [exact Hs|].
  apply negb_false_iff in Ht. now apply truthy_string_spec.
Qed.

(** The button is disabled whenever [isSubmitting] is true. *)
Lemma submitting_disables (st : QueryPage.state) :
  QueryPage.isSubmitting st = true -> QueryPage.submit_disabled st = true.
Proof. unfold QueryPage.submit_disabled. now intros ->. Qed.

(** Only a step that leaves [isSubmitting] set and one more POST in flight
    starts a POST to [/api/queries], and it is taken with [isSubmitting]
    unset. *)
Lemma step_post_inv (B : jsstring) (p p' : QueryPage.page)
  (e : QueryPage.event) (fx : list effect) :
  QueryPage.step B p e = Some (fx, p') ->
  existsb (is_post_to (QueryPage.queries_url B)) fx = true ->
  e = QueryPage.SubmitForm /\
  QueryPage.isSubmitting (QueryPage.ui p) = false /\
  QueryPage.isSubmitting (QueryPage.ui p') = true /\
  QueryPage.queries_in_flight p' = S (QueryPage.queries_in_flight p).
Proof.
  unfold QueryPage.step. destruct (QueryPage.left p); [discriminate|].
  destruct e; intros Hstep Hpost.
  - injection Hstep as <- _. discriminate Hpost.
  - injection Hstep as <- _. discriminate Hpost.
  - injection Hstep as <- _. discriminate Hpost.
  - unfold QueryPage.handleVoiceResponse_start, QueryPage.play_tts_start in Hstep.
    injection Hstep as <- _. cbn [existsb] in Hpost.
    now rewrite tts_is_no_query_post in Hpost.
  - destruct (QueryPage.voiceResponse (QueryPage.ui p)); [|discriminate].
    destruct (QueryPage.play_disabled (QueryPage.ui p)); [discriminate|].
    unfold QueryPage.play_tts_start in Hstep.
    injection Hstep as <- _. cbn [existsb] in Hpost.
    now rewrite tts_is_no_query_post in Hpost.
  - destruct (QueryPage.voiceResponse (QueryPage.ui p)); [|discriminate].
    injection Hstep as <- _. discriminate Hpost.
  - destruct (QueryPage.tts_in_flight p); [discriminate|].
    destruct spoken; cbn in Hstep; injection Hstep as <- _; discriminate Hpost.
  - destruct (QueryPage.submit_disabled (QueryPage.ui p)) eqn:Hd; [discriminate|].
    apply submit_enabled_inv in Hd as [Hs Ht].
    rewrite (handleSubmit_start_text _ _ Ht) in Hstep.
    injection Hstep as <- <-. cbn. auto.
  - destruct (QueryPage.queries_in_flight p); [discriminate|].
    destruct posted as [[|id]|]; cbn in Hstep; injection Hstep as <- _;
      discriminate Hpost.
Qed.

(** On every reachable page the number of POSTs to [/api/queries] in flight
    is one while [isSubmitting] is set and zero otherwise. *)
Lemma reachable_in_flight (B : jsstring) (p : QueryPage.page) :
  QueryPage.reachable B p ->
  QueryPage.queries_in_flight p =
    if QueryPage.isSubmitting (QueryPage.ui p) then 1%nat else 0%nat.
Proof.
  induction 1 as [|p e fx p' Hreach IH Hstep]; [reflexivity|].
  unfold QueryPage.step in Hstep. destruct (QueryPage.left p); [discriminate|].
  destruct e.
  - injection Hstep as _ <-. exact IH.
  - injection Hstep as _ <-. exact IH.
  - injection Hstep as _ <-. exact IH.
  - cbn in Hstep. injection Hstep as _ <-. exact IH.
  - destruct (QueryPage.voiceResponse (QueryPage.ui p)); [|discriminate].
    destruct (QueryPage.play_disabled (QueryPage.ui p)); [discriminate|].
    cbn in Hstep. injection Hstep as _ <-. exact IH.
  - destruct (QueryPage.voiceResponse (QueryPage.ui p)); [|discriminate].
    injection Hstep as _ <-. exact IH.
  - destruct (QueryPage.tts_in_flight p); [discriminate|].
    destruct spoken; cbn in Hstep; injection Hstep as _ <-; exact IH.
  - destruct (QueryPage.submit_disabled (QueryPage.ui p)) eqn:Hd; [discriminate|].
    apply submit_enabled_inv in Hd as [Hs Ht].
    rewrite (handleSubmit_start_text _ _ Ht) in Hstep.
    injection Hstep as _ <-. cbn. now rewrite IH, Hs.
  - destruct (QueryPage.queries_in_flight p) as [|n] eqn:Hn; [discriminate|].
    destruct (QueryPage.isSubmitting (QueryPage.ui p)); [|discriminate IH].
    injection IH as ->.
    destruct posted as [[|id]|]; cbn in Hstep; injection Hstep as _ <-;
      reflexivity.
Qed.

(** C4: on every page reachable from the mounted query page, a step that
    starts a POST to [/api/queries] is taken with no such POST in flight:
    the step sets [isSubmitting] with the request, the submit button is
    disabled while [isSubmitting] is set, and it stays set until the
    response; so at most one POST is ever in flight. *)
Theorem one_query_in_flight
  (BACKEND_URL : jsstring) (p p' : QueryPage.page) (e : QueryPage.event)
  (fx : list effect) :
  QueryPage.reachable BACKEND_URL p ->
  QueryPage.step BACKEND_URL p e = Some (fx, p') ->
  existsb (is_post_to (QueryPage.queries_url BACKEND_URL)) fx = true ->
  QueryPage.queries_in_flight p = 0%nat /\
  QueryPage.queries_in_flight p' = 1%nat /\
  QueryPage.isSubmitting (QueryPage.ui p') = true /\
  QueryPage.submit_disabled (QueryPage.ui p') = true /\
  QueryPage.step BACKEND_URL p' QueryPage.SubmitForm = None.
Proof.
  intros Hreach Hstep Hpost.
  destruct (step_post_inv _ _ _ _ _ Hstep Hpost) as (-> & Hs & Hs' & Hn).
  pose proof (reachable_in_flight _ _ Hreach) as Hinv.
  rewrite Hs in Hinv. rewrite Hinv in Hn.
  repeat split; try assumption.
  - now apply submitting_disables.
  - unfold QueryPage.step. destruct (QueryPage.left p'); [reflexivity|].
    now rewrite (submitting_disables _ Hs').
Qed.

Lemma theft_page_reachable : QueryPage.reachable localhost theft_page.
Proof.
  apply (QueryPage.reachable_step localhost QueryPage.mounted
           (QueryPage.SetQueryText (lit "How do I file an FIR for theft?")) []).
  - apply QueryPage.reachable_mounted.
  - reflexivity.
Defined.

Lemma one_query_in_flight_witness :
  QueryPage.queries_in_flight theft_page = 0%nat /\
  QueryPage.queries_in_flight theft_submitted = 1%nat /\
  QueryPage.isSubmitting (QueryPage.ui theft_submitted) = true /\
  QueryPage.submit_disabled (QueryPage.ui theft_submitted) = true /\
  QueryPage.step localhost theft_submitted QueryPage.SubmitForm = None.
Proof.
  apply (one_query_in_flight localhost theft_page theft_submitted
           QueryPage.SubmitForm
           [PreventDefault;
            HttpPost (QueryPage.queries_url localhost)
              (QueryPage.query_body theft_query)]).
  - exact theft_page_reachable.
  - vm_compute. reflexivity.
  - vm_compute. reflexivity.
Defined.

(** The handler itself does not look at [isSubmitting]: what keeps a second
    POST from starting is the disabled button. *)
Remark handleSubmit_start_ignores_isSubmitting (B : jsstring) (st : QueryPage.state) :
  trim (QueryPage.queryText st) <> [] ->
  existsb (is_post_to (QueryPage.queries_url B))
    (fst (fst (QueryPage.handleSubmit_start B (QueryPage.setIsSubmitting true st)))) = true.
Proof.
  intros H. rewrite handleSubmit_start_text by exact H.
  cbn [fst existsb]. now rewrite is_post_to_refl.
Qed.

(** ** pages/DocumentsPage.jsx: handleGenerateDocument *)

(** C5: [handleGenerateDocument] validates the form the document type
    selects (the FIR details when [docType] is ['FIR'], the RTI details
    otherwise) and issues the POST to [/api/documents] exactly when its name
    and its address are both non-empty; when one is empty it shows an error
    toast, makes no request and leaves the state, [generatedDoc] included,
    as it was. *)
Theorem handleGenerateDocument_posts_iff_filled
  (BACKEND_URL : jsstring) (st : DocumentsPage.state) (now : jsstring)
  (posted : outcome json) :
  let run := DocumentsPage.handleGenerateDocument BACKEND_URL st now posted in
  let form_name :=
    if decide (DocumentsPage.docType st = lit "FIR")
    then DocumentsPage.FIR.name (DocumentsPage.firDetails st)
    else DocumentsPage.RTI.name (DocumentsPage.rtiDetails st) in
  let form_address :=
    if decide (DocumentsPage.docType st = lit "FIR")
    then DocumentsPage.FIR.address (DocumentsPage.firDetails st)
    else DocumentsPage.RTI.address (DocumentsPage.rtiDetails st) in
  (existsb (is_post_to (DocumentsPage.documents_url BACKEND_URL)) (fst run) = true
   <-> form_name <> [] /\ form_address <> []) /\
  (~ (form_name <> [] /\ form_address <> []) ->
   existsb is_error_toast (fst run) = true /\
   existsb is_request (fst run) = false /\
   DocumentsPage.generatedDoc (snd run) = DocumentsPage.generatedDoc st /\
   snd run = st).
Proof.
  intros run form_name form_address. subst run form_name form_address.
  unfold DocumentsPage.handleGenerateDocument, DocumentsPage.details.
  destruct (decide (DocumentsPage.docType st = lit "FIR"));
    cbn [DocumentsPage.name DocumentsPage.address];
    rewrite <- !truthy_string_spec;
    match goal with
    | |- context [negb (truthy_string ?n) || negb (truthy_string ?a)] =>
        destruct (truthy_string n), (truthy_string a)
    end; cbn [negb orb];
    try (cbn; intuition congruence);
    destruct posted; cbn [fst snd existsb];
    rewrite is_post_to_refl; cbn [orb]; intuition congruence.
Qed.

Lemma handleGenerateDocument_posts_iff_filled_witness :
  (let run := DocumentsPage.handleGenerateDocument localhost blank_documents
                morning Rejected in
   existsb is_error_toast (fst run) = true /\
   existsb is_request (fst run) = false /\
   DocumentsPage.generatedDoc (snd run) = None /\
   snd run = blank_documents) /\
  existsb (is_post_to (DocumentsPage.documents_url localhost))
    (fst (DocumentsPage.handleGenerateDocument localhost ravi_documents
            morning (Fulfilled JNull))) = true.
Proof.
  split.
  - apply (handleGenerateDocument_posts_iff_filled localhost blank_documents
             morning Rejected).
    intros (H & _). apply H. reflexivity.
  - apply (handleGenerateDocument_posts_iff_filled localhost ravi_documents
             morning (Fulfilled JNull)).
    split; vm_compute; discriminate.
Defined.

Example ravi_place_and_date :
  DocumentsPage.place (DocumentsPage.details ravi_documents) = lit "12 MG Road" /\
  DocumentsPage.current_date morning = lit "2024-01-15".
Proof. split; vm_compute; reflexivity. Qed.

(** ** pages/ResponsePage.jsx: playTextToSpeech *)

Lemma text_to_speak_None (st : ResponsePage.state) :
  ResponsePage.text_to_speak st = None ->
  forall B spoken, ResponsePage.playTextToSpeech B st spoken = ([], st).
Proof.
  intros H B spoken. unfold ResponsePage.playTextToSpeech. rewrite H.
  now destruct (ResponsePage.query st).
Qed.

(** C6, as stated, at a query whose [response_text] is there and is the
    empty string: the field is not absent, yet [playTextToSpeech] makes no
    request. *)
Lemma playTextToSpeech_empty_text_counterexample :
  (exists q, ResponsePage.query empty_response = Some q /\
             ResponsePage.response_text q = Some (lit "")) /\
  ~ existsb (is_post_to (ResponsePage.tts_url localhost))
      (fst (ResponsePage.playTextToSpeech localhost empty_response
              (Fulfilled some_audio))) = true.
Proof.
  split.
  - eexists. split; reflexivity.
  - cbn. discriminate.
Qed.

(** C6, amended: [playTextToSpeech] does nothing (no request, no playback,
    no state change) when the query or its [response_text] is absent or the
    text is empty; otherwise its one request is the POST of [{text:
    response_text, language}] to [/api/text-to-speech], with [language] the
    [detected_language], or ['en'] when that is absent or empty; it plays
    the blob the server returns and nothing else, nothing when the request
    fails, and never uses the browser's own synthesizer. *)
Theorem playTextToSpeech_plays_server_audio
  (BACKEND_URL : jsstring) (st : ResponsePage.state)
  (spoken : outcome (list Byte.byte)) :
  let run := ResponsePage.playTextToSpeech BACKEND_URL st spoken in
  (ResponsePage.query st = None \/
   (exists q, ResponsePage.query st = Some q /\
              (ResponsePage.response_text q = None \/
               ResponsePage.response_text q = Some (lit ""))) ->
   run = ([], st)) /\
  (forall q text,
     ResponsePage.query st = Some q ->
     ResponsePage.response_text q = Some text -> text <> [] ->
     let lang :=
       match ResponsePage.detected_language q with
       | Some l => if decide (l = []) then lit "en" else l
       | None => lit "en"
       end in
     List.filter is_request (fst run) =
       [HttpPost (ResponsePage.tts_url BACKEND_URL)
          (JObject [ ("text", JString text); ("language", JString lang) ]%string)] /\
     List.filter is_playback (fst run) =
       match spoken with
       | Fulfilled blob => [AudioPlay (ObjectURL blob)]
       | Rejected => []
       end) /\
  existsb is_local_synthesis (fst run) = false.
Proof.
  intros run. subst run. split; [|split].
  - intros [Hq | (q & Hq & [Ht | Ht])]; apply text_to_speak_None;
      unfold ResponsePage.text_to_speak; rewrite Hq; [reflexivity | |];
      now rewrite Ht.
  - intros q text Hq Ht Hne lang. subst lang.
    unfold ResponsePage.playTextToSpeech, ResponsePage.text_to_speak,
      ResponsePage.speech_language.
    rewrite Hq, Ht. cbn [ResponsePage.truthy_field].
    apply truthy_string_spec in Hne. rewrite Hne.
    assert (Hlang :
      match ResponsePage.truthy_field (ResponsePage.detected_language q) with
      | Some l => l
      | None => lit "en"
      end =
      match ResponsePage.detected_language q with
      | Some l => if decide (l = []) then lit "en" else l
      | None => lit "en"
      end).
    { destruct (ResponsePage.detected_language q) as [[|c l]|]; reflexivity. }
    rewrite Hlang.
    destruct spoken; [destruct (ResponsePage.audioRef st)|]; split; reflexivity.
  - unfold ResponsePage.playTextToSpeech.
    destruct (ResponsePage.query st); [|reflexivity].
    destruct (ResponsePage.text_to_speak st); [|reflexivity].
    destruct spoken; [destruct (ResponsePage.audioRef st)|]; reflexivity.
Qed.

Lemma playTextToSpeech_plays_server_audio_witness :
  (let run := ResponsePage.playTextToSpeech localhost empty_response
                (Fulfilled some_audio) in
   run = ([], empty_response)) /\
  (let run := ResponsePage.playTextToSpeech localhost hindi_response
                (Fulfilled some_audio) in
   List.filter is_request (fst run) =
     [HttpPost (ResponsePage.tts_url localhost)
        (JObject [ ("text", JString (lit "File the FIR at the station."));
                   ("language", JString (lit "hi")) ]%string)] /\
   List.filter is_playback (fst run) = [AudioPlay (ObjectURL some_audio)]).
Proof.
  split.
  - apply (playTextToSpeech_plays_server_audio localhost empty_response
             (Fulfilled some_audio)).
    right. eexists. split; [reflexivity | right; reflexivity].
  - pose proof (playTextToSpeech_plays_server_audio localhost hindi_response
                  (Fulfilled some_audio)) as (_ & H & _).
    apply (H {| ResponsePage.response_text := Some (lit "File the FIR at the station.");
                ResponsePage.detected_language := Some (lit "hi") |}
             (lit "File the FIR at the station.")).
    + reflexivity.
    + reflexivity.
    + vm_compute. discriminate.
Defined.

(** ** Audio sources: text-to-speech and components/AudioPlayer.jsx *)

(** C7, as stated, at the [AudioPlayer] of the audio ["a1"] with the
    backend at [http://localhost:8000]: the [<audio>] element's [src] is the
    backend's own URL for that audio, not a blob URL. *)
Lemma AudioPlayer_src_counterexample :
  AudioPlayer.render localhost (Some (lit "a1")) =
    AudioPlayer.Player (Location (lit "http://localhost:8000/api/audio/a1")) /\
  is_blob_url (Location (lit "http://localhost:8000/api/audio/a1")) = false.
Proof. split; vm_compute; reflexivity. Qed.

(** C7, amended: what the text-to-speech paths play (on the response page
    and on the query page) is an audio element on the object URL of the blob
    the server returned, and they play nothing when the request fails; the
    [AudioPlayer] component's [<audio>] element instead has as [src] the
    backend URL [<BACKEND_URL>/api/audio/<audioId>] itself. *)
Theorem played_audio_sources (BACKEND_URL : jsstring) :
  (forall st spoken src,
     In (AudioPlay src)
        (fst (ResponsePage.playTextToSpeech BACKEND_URL st spoken)) ->
     exists blob, spoken = Fulfilled blob /\ src = ObjectURL blob /\
                  is_blob_url src = true) /\
  (forall st spoken src,
     In (AudioPlay src) (fst (QueryPage.play_tts_resume spoken st)) ->
     exists blob, spoken = Fulfilled blob /\ src = ObjectURL blob /\
                  is_blob_url src = true) /\
  (forall audioId, audioId <> [] ->
     AudioPlayer.render BACKEND_URL (Some audioId) =
       AudioPlayer.Player (Location (BACKEND_URL ++ lit "/api/audio/" ++ audioId))).
Proof.
  split; [|split].
  - intros st spoken src. unfold ResponsePage.playTextToSpeech.
    destruct (ResponsePage.query st); [|intros []].
    destruct (ResponsePage.text_to_speak st); [|intros []].
    destruct spoken as [blob|].
    + intros Hin. exists blob.
      destruct (ResponsePage.audioRef st); cbn in Hin;
        repeat (destruct Hin as [Hin | Hin]; try discriminate Hin);
        try contradiction; injection Hin as <-; auto.
    + cbn. intros Hin.
      repeat (destruct Hin as [Hin | Hin]; try discriminate Hin). contradiction.
  - intros st [blob|] src; cbn; intros Hin;
      repeat (destruct Hin as [Hin | Hin]; try discriminate Hin);
      try contradiction.
    exists blob. injection Hin as <-. auto.
  - intros audioId Hne. apply truthy_string_spec in Hne.
    unfold AudioPlayer.render. now rewrite Hne.
Qed.

Lemma played_audio_sources_witness :
  (exists blob, Fulfilled some_audio = Fulfilled blob /\
                ObjectURL some_audio = ObjectURL blob /\
                is_blob_url (ObjectURL some_audio) = true) /\
  AudioPlayer.render localhost (Some (lit "a1")) =
    AudioPlayer.Player (Location (localhost ++ lit "/api/audio/" ++ lit "a1")).
Proof.
  pose proof (played_audio_sources localhost) as (Hresp & _ & Hplayer).
  split.
  - apply (Hresp hindi_response (Fulfilled some_audio) (ObjectURL some_audio)).
    cbn. right. right. left. reflexivity.
  - apply Hplayer. discriminate.
Defined.

(** ** The tables at a glance *)

Example known_lookups :
  Helpers.getCategoryStyle (lit "rti") = VString (lit "category-rti") /\
  Helpers.getCategoryLabel (lit "fir") = VString (lit "FIR / Police") /\
  Helpers.getStatusStyle (lit "closed") = VString (lit "status-closed") /\
  Helpers.getLanguageLabel (lit "hi") = VString Helpers.hindi.
Proof. repeat split; vm_compute; reflexivity. Qed.

Example unknown_lookups :
  Helpers.getCategoryStyle (lit "tax") = VString (lit "category-general") /\
  Helpers.getCategoryLabel (lit "tax") = VString (lit "tax") /\
  Helpers.getStatusStyle (lit "") = VString (lit "status-open") /\
  Helpers.getLanguageLabel (lit "ta") = VString (lit "ta").
Proof. repeat split; vm_compute; reflexivity. Qed.

(** * Further properties of the code *)

(** ** utils/helpers.js *)

Lemma or_else_truthy (a b : value) :
  ToBoolean (or_else a b) = ToBoolean a || ToBoolean b.
Proof. unfold or_else. destruct (ToBoolean a) eqn:Ha; [exact Ha | reflexivity]. Qed.

(** X1: on every string that [Object.prototype] does not define, the style
    lookups are the table with its default: a known category [k] has the
    class [category-k], any other string [category-general]; a known status
    [k] has [status-k], any other string [status-open]. *)
Theorem style_lookup_outside_prototype (k : jsstring) :
  Object_prototype !! k = None ->
  Helpers.getCategoryStyle k =
    VString (lit "category-" ++ (if decide (k ∈ categories) then k else lit "general")) /\
  Helpers.getStatusStyle k =
    VString (lit "status-" ++ (if decide (k ∈ statuses) then k else lit "open")).
Proof.
  intros Hp. split.
  - destruct (decide (k ∈ categories)) as [Hk | Hk].
    + now apply getCategoryStyle_known.
    + now apply getCategoryStyle_default.
  - destruct (decide (k ∈ statuses)) as [Hk | Hk].
    + now apply getStatusStyle_known.
    + now apply getStatusStyle_default.
Qed.

Lemma style_lookup_outside_prototype_witness :
  Helpers.getCategoryStyle (lit "labour") = VString (lit "category-labour") /\
  Helpers.getStatusStyle (lit "labour") = VString (lit "status-open").
Proof.
  apply (style_lookup_outside_prototype (lit "labour")). vm_compute. reflexivity.
Defined.

(** X2: on every string that [Object.prototype] does not define and that is
    not a key of its table, [getCategoryLabel] and [getLanguageLabel] return
    the string itself. *)
Theorem label_lookup_identity_outside_tables (k : jsstring) :
  Object_prototype !! k = None ->
  (k ∉ categories -> Helpers.getCategoryLabel k = VString k) /\
  (k ∉ language_codes -> Helpers.getLanguageLabel k = VString k).
Proof.
  intros Hp. split; intros Hk.
  - now apply getCategoryLabel_unknown.
  - now apply getLanguageLabel_unknown.
Qed.

Lemma label_lookup_identity_outside_tables_witness :
  Helpers.getCategoryLabel (lit "tax") = VString (lit "tax") /\
  Helpers.getLanguageLabel (lit "ta") = VString (lit "ta").
Proof.
  split.
  - apply (label_lookup_identity_outside_tables (lit "tax"));
      [vm_compute; reflexivity|].
    intros H. unfold categories in H.
    repeat (apply elem_of_cons in H as [H | H]; [discriminate H|]).
    now apply elem_of_nil in H.
  - apply (label_lookup_identity_outside_tables (lit "ta"));
      [vm_compute; reflexivity|].
    intros H. unfold language_codes in H.
    repeat (apply elem_of_cons in H as [H | H]; [discriminate H|]).
    now apply elem_of_nil in H.
Defined.

(** X3: whatever the input, the style lookups never return a falsy value
    (no [undefined], no empty class), and the label lookups return a falsy
    value for the empty string only. *)
Theorem lookups_are_truthy (k : jsstring) :
  ToBoolean (Helpers.getCategoryStyle k) = true /\
  ToBoolean (Helpers.getStatusStyle k) = true /\
  (ToBoolean (Helpers.getCategoryLabel k) = false <-> k = []) /\
  (ToBoolean (Helpers.getLanguageLabel k) = false <-> k = []).
Proof.
  unfold Helpers.getCategoryStyle, Helpers.getStatusStyle,
    Helpers.getCategoryLabel, Helpers.getLanguageLabel.
  rewrite !or_else_truthy.
  repeat split.
  - apply orb_true_iff. right. vm_compute. reflexivity.
  - apply orb_true_iff. right. vm_compute. reflexivity.
  - intros H. apply orb_false_iff in H as [_ H]. destruct k; [reflexivity | discriminate H].
  - intros ->. vm_compute. reflexivity.
  - intros H. apply orb_false_iff in H as [_ H]. destruct k; [reflexivity | discriminate H].
  - intros ->. vm_compute. reflexivity.
Qed.

Lemma lookups_are_truthy_witness :
  ToBoolean (Helpers.getCategoryLabel (lit "")) = false /\
  ToBoolean (Helpers.getLanguageLabel (lit "")) = false.
Proof.
  destruct (lookups_are_truthy (lit "")) as (_ & _ & Hc & Hl).
  split; [apply Hc | apply Hl]; reflexivity.
Defined.

(** ** pages/StudentPortal.jsx: the skills array *)

Lemma trimStart_clean (s : jsstring) : starts_clean s = true -> trimStart s = s.
Proof.
  destruct s as [|c s]; [reflexivity|]. simpl. intros H.
  apply negb_true_iff in H. now rewrite H.
Qed.

(** Trimming changes nothing on a string with no white space at its ends. *)
Lemma trim_clean (s : jsstring) : no_surrounding_space s = true -> trim s = s.
Proof.
  unfold no_surrounding_space, trim, trimEnd. intros H.
  apply andb_true_iff in H as [Hs He].
  rewrite (trimStart_clean s Hs), (trimStart_clean (rev s) He).
  apply rev_involutive.
Qed.

Lemma free_of_In (c : N) (s : jsstring) : free_of c s = true <-> ~ In c s.
Proof.
  unfold free_of. rewrite forallb_forall. split.
  - intros H Hin. specialize (H c Hin). now rewrite N.eqb_refl in H.
  - intros H x Hx. apply negb_true_iff, N.eqb_neq. intros ->. now apply H.
Qed.

Lemma trimStart_incl (s : jsstring) (c : N) : In c (trimStart s) -> In c s.
Proof.
  induction s as [|x s IH]; simpl; [tauto|].
  destruct (is_white_space x); [right; now apply IH | tauto].
Qed.

(** Trimming adds no code unit. *)
Lemma trim_free_of (c : N) (s : jsstring) :
  free_of c s = true -> free_of c (trim s) = true.
Proof.
  rewrite !free_of_In. intros H Hin. apply H.
  unfold trim, trimEnd in Hin. apply in_rev in Hin.
  apply trimStart_incl in Hin. apply in_rev in Hin.
  now apply trimStart_incl in Hin.
Qed.

Lemma skillsArray_clean (f : StudentPortal.student_form) :
  forallb clean_skill (StudentPortal.skillsArray f) = true.
Proof.
  apply forallb_forall. intros s Hs. unfold StudentPortal.skillsArray in Hs.
  apply List.filter_In in Hs as [Hin Ht].
  apply List.in_map_iff in Hin as (seg & <- & Hseg).
  unfold clean_skill. rewrite Ht, trim_no_surrounding_space. simpl.
  apply trim_free_of.
  pose proof (split_free_of comma (StudentPortal.skills f)) as Hfree.
  rewrite forallb_forall in Hfree. now apply Hfree.
Qed.

Lemma clean_skills_kept (l : list jsstring) :
  forallb clean_skill l = true -> List.filter truthy_string (map trim l) = l.
Proof.
  induction l as [|s l IH]; [reflexivity|]. simpl. intros H.
  apply andb_true_iff in H as [Hs Hl]. unfold clean_skill in Hs.
  apply andb_true_iff in Hs as [Hs _]. apply andb_true_iff in Hs as [Ht Hc].
  rewrite (trim_clean s Hc), Ht, (IH Hl). reflexivity.
Qed.

Lemma clean_skills_free (l : list jsstring) :
  forallb clean_skill l = true -> forallb (free_of comma) l = true.
Proof.
  rewrite !forallb_forall. intros H s Hs. specialize (H s Hs).
  unfold clean_skill in H. now apply andb_true_iff in H as [_ H].
Qed.

(** X4: skills typed as clean entries (not empty, no white space at the
    ends, no comma) separated by commas come back as exactly those entries,
    in order. *)
Theorem skillsArray_round_trip
  (f : StudentPortal.student_form) (l : list jsstring) :
  forallb clean_skill l = true ->
  StudentPortal.skills f = join comma l ->
  StudentPortal.skillsArray f = l.
Proof.
  intros Hl Hf. unfold StudentPortal.skillsArray. rewrite Hf.
  destruct l as [|s l]; [reflexivity|].
  rewrite split_join; [|discriminate | now apply clean_skills_free].
  now apply clean_skills_kept.
Qed.

Lemma skillsArray_round_trip_witness :
  StudentPortal.skillsArray (with_skills (lit "RTI,Criminal Law")) =
    [lit "RTI"; lit "Criminal Law"].
Proof.
  apply (skillsArray_round_trip (with_skills (lit "RTI,Criminal Law"))
           [lit "RTI"; lit "Criminal Law"]); vm_compute; reflexivity.
Defined.

(** X5: the array is a normal form: typing the posted skills again, joined
    with commas, posts the same array. *)
Theorem skillsArray_idempotent (f g : StudentPortal.student_form) :
  StudentPortal.skills g = join comma (StudentPortal.skillsArray f) ->
  StudentPortal.skillsArray g = StudentPortal.skillsArray f.
Proof.
  intros Hg. apply skillsArray_round_trip; [apply skillsArray_clean | exact Hg].
Qed.

Lemma skillsArray_idempotent_witness :
  StudentPortal.skillsArray (with_skills (lit "Criminal Law,RTI,Drafting")) =
  StudentPortal.skillsArray (with_skills (lit " Criminal Law, RTI ,, Drafting ")).
Proof.
  apply (skillsArray_idempotent
           (with_skills (lit " Criminal Law, RTI ,, Drafting "))
           (with_skills (lit "Criminal Law,RTI,Drafting"))).
  vm_compute. reflexivity.
Defined.

(** X6: an input made of white space and commas only posts an empty skills
    array. *)
Theorem skillsArray_of_blank (f : StudentPortal.student_form) :
  forallb (fun c => is_white_space c || (c =? comma)) (StudentPortal.skills f) = true ->
  StudentPortal.skillsArray f = [].
Proof.
  unfold StudentPortal.skillsArray.
  generalize (StudentPortal.skills f) as s. intros s Hs.
  assert (Hseg : forall seg, In seg (split comma s) -> forallb is_white_space seg = true).
  { induction s as [|c s IH]; simpl.
    - intros seg [<- | []]. reflexivity.
    - simpl in Hs. apply andb_true_iff in Hs as [Hc Hs]. specialize (IH Hs).
      destruct (c =? comma) eqn:Ec.
      + intros seg [<- | Hin]; [reflexivity | now apply IH].
      + rewrite orb_false_r in Hc.
        pose proof (split_not_nil comma s) as Hne.
        destruct (split comma s) as [|seg0 rest]; [contradiction|].
        intros seg [<- | Hin].
        * simpl. rewrite Hc. apply IH. now left.
        * apply IH. now right. }
  assert (Hblank : forall seg, forallb is_white_space seg = true -> trimStart seg = []).
  { induction seg as [|c seg IH]; [reflexivity|]. simpl. intros H.
    apply andb_true_iff in H as [Hc H]. rewrite Hc. now apply IH. }
  induction (split comma s) as [|seg segs IH]; [reflexivity|].
  simpl. unfold trim at 1. rewrite (Hblank seg) by (apply Hseg; now left).
  simpl. apply IH. intros seg' Hin. apply Hseg. now right.
Qed.

Lemma skillsArray_of_blank_witness :
  StudentPortal.skillsArray (with_skills (lit " , ,, ")) = [].
Proof.
  apply (skillsArray_of_blank (with_skills (lit " , ,, "))).
  vm_compute. reflexivity.
Defined.

(** ** pages/StudentPortal.jsx: the handlers *)

(** X7: when the POST of a new student fails, [handleAddStudent] leaves the
    whole state as it was, so the dialog stays open with what was typed;
    when the POST of a valid form succeeds, the form is blank again, the
    dialog is closed, and the requests made are the POST followed by the two
    GETs of the refresh, in that order. *)
Theorem handleAddStudent_keeps_or_resets
  (BACKEND_URL : jsstring) (st : StudentPortal.state) :
  snd (StudentPortal.handleAddStudent BACKEND_URL st Rejected) = st /\
  (valid_form (StudentPortal.newStudent st) ->
   let run := StudentPortal.handleAddStudent BACKEND_URL st (Fulfilled tt) in
   StudentPortal.newStudent (snd run) = StudentPortal.empty_form /\
   StudentPortal.studentDialogOpen (snd run) = false /\
   StudentPortal.loading (snd run) = true /\
   List.filter is_request (fst run) =
     [HttpPost (StudentPortal.students_url BACKEND_URL)
        (StudentPortal.student_body (StudentPortal.newStudent st));
      HttpGet (StudentPortal.students_url BACKEND_URL);
      HttpGet (StudentPortal.cases_url BACKEND_URL)]).
Proof.
  split.
  - unfold StudentPortal.handleAddStudent.
    repeat match goal with
           | |- context [if negb ?b then _ else _] =>
               destruct b; cbn [negb]; [|reflexivity]
           end.
    reflexivity.
  - intros Hv. apply valid_form_checks in Hv as (Hn & He & Ha & Hc).
    unfold StudentPortal.handleAddStudent. rewrite Hn, He, Ha, Hc.
    cbn. auto.
Qed.

Lemma handleAddStudent_keeps_or_resets_witness :
  let run := StudentPortal.handleAddStudent localhost asha_student (Fulfilled tt) in
  StudentPortal.newStudent (snd run) = StudentPortal.empty_form /\
  StudentPortal.studentDialogOpen (snd run) = false /\
  StudentPortal.loading (snd run) = true /\
  List.filter is_request (fst run) =
    [HttpPost (StudentPortal.students_url localhost)
       (StudentPortal.student_body (StudentPortal.newStudent asha_student));
     HttpGet (StudentPortal.students_url localhost);
     HttpGet (StudentPortal.cases_url localhost)].
Proof.
  apply (handleAddStudent_keeps_or_resets localhost asha_student).
  repeat split; try (vm_compute; discriminate).
  vm_compute. do 4 right. left. reflexivity.
Defined.

(** X8: when the refresh settles, [loading] is off whatever happened, and
    the two lists change together or not at all: they are replaced by the
    fetched ones when both GETs succeeded, and both keep their old value,
    with an error toast, as soon as one GET failed, even if the other one
    succeeded. The forms and dialogs are not touched. *)
Theorem fetchData_all_or_nothing
  (studentsRes : outcome (list Portal.student))
  (casesRes : outcome (list Portal.case_item)) (st : Portal.state) :
  let run := Portal.fetchData_settled studentsRes casesRes st in
  StudentPortal.loading (Portal.form (snd run)) = false /\
  StudentPortal.newStudent (Portal.form (snd run)) =
    StudentPortal.newStudent (Portal.form st) /\
  StudentPortal.studentDialogOpen (Portal.form (snd run)) =
    StudentPortal.studentDialogOpen (Portal.form st) /\
  Portal.newCase (snd run) = Portal.newCase st /\
  Portal.caseDialogOpen (snd run) = Portal.caseDialogOpen st /\
  (forall s c, studentsRes = Fulfilled s -> casesRes = Fulfilled c ->
     Portal.students (snd run) = s /\ Portal.cases (snd run) = c /\
     fst run = []) /\
  (studentsRes = Rejected \/ casesRes = Rejected ->
     Portal.students (snd run) = Portal.students st /\
     Portal.cases (snd run) = Portal.cases st /\
     List.filter Portal.is_toast_error (fst run) =
       [Portal.Did (ToastError "Failed to load data")]).
Proof.
  cbv zeta.
  do 5 (split; [destruct studentsRes, casesRes; reflexivity|]).
  split.
  - intros s c -> ->. repeat split.
  - intros [-> | ->]; [|destruct studentsRes]; repeat split.
Qed.

Lemma fetchData_all_or_nothing_witness :
  let run := Portal.fetchData_settled (Fulfilled []) Rejected busy_portal in
  Portal.students (snd run) = two_students /\
  Portal.cases (snd run) = Portal.cases busy_portal /\
  List.filter Portal.is_toast_error (fst run) =
    [Portal.Did (ToastError "Failed to load data")].
Proof.
  apply (fetchData_all_or_nothing (Fulfilled []) Rejected busy_portal).
  right. reflexivity.
Defined.

(** X9: each of the five handlers [handleSeedData], [handleDeleteStudent],
    [handleAddCase], [handleAssignCase] and [handleDeleteCase] starts the
    refresh (the GETs of [fetchData]) exactly when its request succeeded
    (and, for the deletions, was confirmed); when the request fails the state
    is left as it was. *)
Theorem handlers_refresh_on_success
  (BACKEND_URL : jsstring) (st : Portal.state) (settled : outcome unit)
  (id other : jsstring) (confirmed : bool) :
  let seed := Portal.handleSeedData BACKEND_URL st settled in
  let del_student := Portal.handleDeleteStudent BACKEND_URL id confirmed st settled in
  let add_case := Portal.handleAddCase BACKEND_URL st settled in
  let assign := Portal.handleAssignCase BACKEND_URL id other st settled in
  let del_case := Portal.handleDeleteCase BACKEND_URL id confirmed st settled in
  existsb Portal.is_get (fst seed) = succeeded settled /\
  existsb Portal.is_get (fst del_student) = confirmed && succeeded settled /\
  existsb Portal.is_get (fst add_case) = succeeded settled /\
  existsb Portal.is_get (fst assign) = succeeded settled /\
  existsb Portal.is_get (fst del_case) = confirmed && succeeded settled /\
  (settled = Rejected ->
   snd seed = st /\ snd del_student = st /\ snd add_case = st /\
   snd assign = st /\ snd del_case = st).
Proof.
  cbv zeta.
  unfold Portal.handleSeedData, Portal.handleDeleteStudent, Portal.handleAddCase,
    Portal.handleAssignCase, Portal.handleDeleteCase.
  destruct confirmed; cbn [negb andb];
    destruct settled as [[]|]; cbn; repeat split; try discriminate.
Qed.

Lemma handlers_refresh_on_success_witness :
  snd (Portal.handleSeedData localhost busy_portal Rejected) = busy_portal /\
  snd (Portal.handleDeleteStudent localhost (lit "s1") true busy_portal Rejected)
    = busy_portal /\
  snd (Portal.handleAddCase localhost busy_portal Rejected) = busy_portal /\
  snd (Portal.handleAssignCase localhost (lit "s1") (lit "c1") busy_portal Rejected)
    = busy_portal /\
  snd (Portal.handleDeleteCase localhost (lit "s1") true busy_portal Rejected)
    = busy_portal.
Proof.
  apply (handlers_refresh_on_success localhost busy_portal Rejected
           (lit "s1") (lit "c1") true).
  reflexivity.
Defined.

(** X10: a deletion asks first: [handleDeleteStudent] and [handleDeleteCase]
    send their DELETE exactly when the user confirmed, and it is then the
    only request that changes anything; without confirmation they do
    nothing but ask (no request, no toast, state unchanged). *)
Theorem deletions_need_confirmation
  (BACKEND_URL : jsstring) (st : Portal.state) (settled : outcome unit)
  (id : jsstring) (confirmed : bool) :
  let del_student := Portal.handleDeleteStudent BACKEND_URL id confirmed st settled in
  let del_case := Portal.handleDeleteCase BACKEND_URL id confirmed st settled in
  List.filter Portal.is_mutation (fst del_student) =
    (if confirmed then [Portal.HttpDelete (Portal.student_url BACKEND_URL id)] else []) /\
  List.filter Portal.is_mutation (fst del_case) =
    (if confirmed then [Portal.HttpDelete (Portal.case_url BACKEND_URL id)] else []) /\
  (confirmed = false ->
   del_student = ([Portal.Confirm "Are you sure you want to delete this student?"], st) /\
   del_case = ([Portal.Confirm "Are you sure you want to delete this case?"], st)).
Proof.
  cbv zeta. unfold Portal.handleDeleteStudent, Portal.handleDeleteCase.
  destruct confirmed; cbn [negb];
    destruct settled as [[]|]; cbn; repeat split; discriminate.
Qed.

Lemma deletions_need_confirmation_witness :
  Portal.handleDeleteStudent localhost (lit "s1") false busy_portal (Fulfilled tt) =
    ([Portal.Confirm "Are you sure you want to delete this student?"], busy_portal) /\
  Portal.handleDeleteCase localhost (lit "s1") false busy_portal (Fulfilled tt) =
    ([Portal.Confirm "Are you sure you want to delete this case?"], busy_portal).
Proof.
  apply (deletions_need_confirmation localhost busy_portal (Fulfilled tt)
           (lit "s1") false).
  reflexivity.
Defined.

(** X11: [handleAddCase] does no validation of its own: whatever the form
    holds, a blank title included, it posts the form as it is to
    [/api/cases], and that is its only changing request; on success the form
    is back to its defaults (category ['consumer']) and the dialog closed,
    and the student form is not touched. *)
Theorem handleAddCase_posts_unvalidated
  (BACKEND_URL : jsstring) (st : Portal.state) (settled : outcome unit) :
  let run := Portal.handleAddCase BACKEND_URL st settled in
  List.filter Portal.is_mutation (fst run) =
    [Portal.Did (HttpPost (StudentPortal.cases_url BACKEND_URL)
                   (JObject [ ("title", JString (Portal.title (Portal.newCase st)));
                              ("description",
                               JString (Portal.description (Portal.newCase st)));
                              ("category",
                               JString (Portal.category (Portal.newCase st))) ]%string))] /\
  (succeeded settled = true ->
   Portal.newCase (snd run) = Portal.blank_case /\
   Portal.caseDialogOpen (snd run) = false /\
   StudentPortal.newStudent (Portal.form (snd run)) =
     StudentPortal.newStudent (Portal.form st) /\
   StudentPortal.studentDialogOpen (Portal.form (snd run)) =
     StudentPortal.studentDialogOpen (Portal.form st)).
Proof.
  cbv zeta. unfold Portal.handleAddCase.
  destruct settled as [[]|]; cbn; repeat split; discriminate.
Qed.

Lemma handleAddCase_posts_unvalidated_witness :
  let run := Portal.handleAddCase localhost busy_portal (Fulfilled tt) in
  Portal.newCase (snd run) = Portal.blank_case /\
  Portal.caseDialogOpen (snd run) = false /\
  StudentPortal.newStudent (Portal.form (snd run)) =
    StudentPortal.newStudent asha_student /\
  StudentPortal.studentDialogOpen (Portal.form (snd run)) = true.
Proof.
  apply (handleAddCase_posts_unvalidated localhost busy_portal (Fulfilled tt)).
  reflexivity.
Defined.

(** ** pages/StudentPortal.jsx: the "Assigned To" cell *)

(** X12: the cell of a case that is not open never shows an empty text:
    it shows ['-'] when the case has no [assigned_student_id] or no fetched
    student has that id, and otherwise the name of the first student with
    that id, or ['-'] again when that name is empty; an open case shows the
    select over all the students instead. *)
Theorem assigned_cell_text (sts : list Portal.student) (c : Portal.case_item) :
  (Portal.status c = lit "open" -> Portal.assigned_to sts c = Portal.AssignSelect sts) /\
  (Portal.status c <> lit "open" ->
   exists text,
     Portal.assigned_to sts c = Portal.AssignedText text /\ text <> [] /\
     ((forall s, In s sts -> Some (Portal.student_id s) <> Portal.assigned_student_id c) ->
      text = lit "-") /\
     (forall before s after,
        sts = before ++ s :: after ->
        (forall s', In s' before -> Portal.student_id s' <> Portal.student_id s) ->
        Portal.assigned_student_id c = Some (Portal.student_id s) ->
        text = if decide (Portal.student_name s = []) then lit "-"
               else Portal.student_name s)).
Proof.
  unfold Portal.assigned_to. split; intros Hs;
    destruct (decide (Portal.status c = lit "open")) as [Ho | Ho];
    try contradiction; [reflexivity|].
  eexists. split; [reflexivity|]. unfold Portal.assigned_name.
  destruct (Portal.assigned_student_id c) as [a|].
  - split; [|split].
    + destruct (List.find _ sts) as [s|]; [|discriminate].
      destruct (truthy_string (Portal.student_name s)) eqn:Ht; [|discriminate].
      now apply truthy_string_spec.
    + intros Hnone.
      destruct (List.find _ sts) as [s|] eqn:Hf; [|reflexivity].
      apply List.find_some in Hf as [Hin Hid].
      destruct (decide (Portal.student_id s = a)) as [<- |]; [|discriminate].
      now destruct (Hnone s Hin).
    + intros before s after -> Hbefore Ha. injection Ha as ->.
      assert (Hfind :
        List.find (fun s0 => if decide (Portal.student_id s0 = Portal.student_id s)
                             then true else false) (before ++ s :: after) = Some s).
      { induction before as [|b before IH]; simpl.
        - destruct (decide (Portal.student_id s = Portal.student_id s)); congruence.
        - destruct (decide (Portal.student_id b = Portal.student_id s)) as [E | _].
          + destruct (Hbefore b (or_introl eq_refl) E).
          + apply IH. intros s' Hs'. apply Hbefore. now right. }
      rewrite Hfind.
      destruct (Portal.student_name s), (decide _); try reflexivity; congruence.
  - split; [discriminate|]. split; [reflexivity|].
    intros before s after _ _ Ha. discriminate Ha.
Qed.

Lemma assigned_cell_text_witness :
  Portal.assigned_to two_students
    {| Portal.case_id := lit "c1"; Portal.status := lit "open";
       Portal.assigned_student_id := None |} = Portal.AssignSelect two_students /\
  (exists text,
     Portal.assigned_to two_students
       {| Portal.case_id := lit "c3"; Portal.status := lit "closed";
          Portal.assigned_student_id := Some (lit "s9") |} = Portal.AssignedText text /\
     text <> [] /\ text = lit "-") /\
  (exists text,
     Portal.assigned_to two_students
       {| Portal.case_id := lit "c4"; Portal.status := lit "assigned";
          Portal.assigned_student_id := Some (lit "s2") |} = Portal.AssignedText text /\
     text = lit "-") /\
  (exists text,
     Portal.assigned_to two_students
       {| Portal.case_id := lit "c2"; Portal.status := lit "assigned";
          Portal.assigned_student_id := Some (lit "s1") |} = Portal.AssignedText text /\
     text = lit "Asha Rao").
Proof.
  split; [|split; [|split]].
  - apply (assigned_cell_text two_students
             {| Portal.case_id := lit "c1"; Portal.status := lit "open";
                Portal.assigned_student_id := None |}).
    reflexivity.
  - destruct (assigned_cell_text two_students
                {| Portal.case_id := lit "c3"; Portal.status := lit "closed";
                   Portal.assigned_student_id := Some (lit "s9") |}) as [_ H].
    destruct H as (text & Hcell & Hne & Hdash & _); [vm_compute; discriminate|].
    exists text. repeat split; try assumption.
    apply Hdash. intros s [<- | [<- | []]]; vm_compute; discriminate.
  - destruct (assigned_cell_text two_students
                {| Portal.case_id := lit "c4"; Portal.status := lit "assigned";
                   Portal.assigned_student_id := Some (lit "s2") |}) as [_ H].
    destruct H as (text & Hcell & _ & _ & Hname); [vm_compute; discriminate|].
    exists text. split; [exact Hcell|].
    apply (Hname [ {| Portal.student_id := lit "s1";
                      Portal.student_name := lit "Asha Rao" |} ]
             {| Portal.student_id := lit "s2"; Portal.student_name := lit "" |} []).
    + reflexivity.
    + intros s' [<- | []]. vm_compute. discriminate.
    + reflexivity.
  - destruct (assigned_cell_text two_students
                {| Portal.case_id := lit "c2"; Portal.status := lit "assigned";
                   Portal.assigned_student_id := Some (lit "s1") |}) as [_ H].
    destruct H as (text & Hcell & _ & _ & Hname); [vm_compute; discriminate|].
    exists text. split; [exact Hcell|].
    apply (Hname []
             {| Portal.student_id := lit "s1"; Portal.student_name := lit "Asha Rao" |}
             [ {| Portal.student_id := lit "s2"; Portal.student_name := lit "" |} ]).
    + reflexivity.
    + intros s' [].
    + reflexivity.
Defined.

(** ** pages/QueryPage.jsx: the form around a submission *)

(** X13: [handleSubmit] never edits the form: after a whole run, whatever
    the server answered, the query text, the language and the voice fields
    are what they were, and [isSubmitting] is off again; on blank input the
    state is untouched. *)
Theorem handleSubmit_keeps_form
  (BACKEND_URL : jsstring) (st : QueryPage.state)
  (posted : outcome QueryPage.response_data) :
  let st' := snd (QueryPage.handleSubmit BACKEND_URL st posted) in
  QueryPage.queryText st' = QueryPage.queryText st /\
  QueryPage.language st' = QueryPage.language st /\
  QueryPage.voiceResponse st' = QueryPage.voiceResponse st /\
  QueryPage.isPlayingTTS st' = QueryPage.isPlayingTTS st /\
  QueryPage.useVoice st' = QueryPage.useVoice st /\
  (trim (QueryPage.queryText st) <> [] -> QueryPage.isSubmitting st' = false) /\
  (trim (QueryPage.queryText st) = [] -> st' = st).
Proof.
  cbv zeta. unfold QueryPage.handleSubmit.
  destruct (trim (QueryPage.queryText st)) as [|c t] eqn:Ht.
  - rewrite (handleSubmit_start_empty _ _ Ht). cbn. repeat split. congruence.
  - assert (Hne : trim (QueryPage.queryText st) <> []) by (rewrite Ht; discriminate).
    rewrite (handleSubmit_start_text _ _ Hne).
    destruct posted as [[|id]|]; cbn; repeat split; congruence.
Qed.

Lemma handleSubmit_keeps_form_witness :
  QueryPage.isSubmitting
    (snd (QueryPage.handleSubmit localhost theft_query Rejected)) = false /\
  snd (QueryPage.handleSubmit localhost blank_query Rejected) = blank_query.
Proof.
  split.
  - apply (handleSubmit_keeps_form localhost theft_query Rejected).
    vm_compute. discriminate.
  - apply (handleSubmit_keeps_form localhost blank_query Rejected).
    reflexivity.
Defined.

(** X14: the submit button is never stuck: on every reachable page that has
    not navigated away, the form can be submitted exactly when no POST to
    [/api/queries] is in flight and the text is not blank; and when the POST
    in flight fails, the page is idle again with the text it had, so the
    same query can be sent again. *)
Theorem submit_enabled_iff_idle (BACKEND_URL : jsstring) (p : QueryPage.page) :
  QueryPage.reachable BACKEND_URL p ->
  QueryPage.left p = false ->
  (QueryPage.step BACKEND_URL p QueryPage.SubmitForm <> None <->
   QueryPage.queries_in_flight p = 0%nat /\
   trim (QueryPage.queryText (QueryPage.ui p)) <> []) /\
  (forall fx p',
     QueryPage.step BACKEND_URL p (QueryPage.QuerySettled Rejected) = Some (fx, p') ->
     QueryPage.queries_in_flight p' = 0%nat /\ QueryPage.left p' = false /\
     QueryPage.queryText (QueryPage.ui p') = QueryPage.queryText (QueryPage.ui p)).
Proof.
  intros Hreach Hleft. pose proof (reachable_in_flight _ _ Hreach) as Hinv.
  unfold QueryPage.step. rewrite Hleft. split.
  - destruct (QueryPage.submit_disabled (QueryPage.ui p)) eqn:Hd.
    + split; [congruence|]. intros [Hn Ht]. exfalso.
      unfold QueryPage.submit_disabled in Hd.
      destruct (QueryPage.isSubmitting (QueryPage.ui p)); [congruence|].
      apply truthy_string_spec in Ht. rewrite Ht in Hd. discriminate Hd.
    + apply submit_enabled_inv in Hd as [Hs Ht]. rewrite Hs in Hinv.
      rewrite (handleSubmit_start_text _ _ Ht). split; [auto | discriminate].
  - intros fx p' Hstep.
    destruct (QueryPage.queries_in_flight p) as [|n]; [discriminate|].
    destruct (QueryPage.isSubmitting (QueryPage.ui p)); [|discriminate].
    injection Hinv as ->. cbn in Hstep. injection Hstep as <- <-. auto.
Qed.

Lemma submit_enabled_iff_idle_witness :
  QueryPage.step localhost theft_page QueryPage.SubmitForm <> None.
Proof.
  apply (submit_enabled_iff_idle localhost theft_page theft_page_reachable eq_refl).
  split; [reflexivity | vm_compute; discriminate].
Defined.

(** ** pages/QueryPage.jsx and components/VoiceRecorder.jsx: voice queries *)

(** X15: a whole run of [handleVoiceResponse] shows the voice query (the
    query text becomes its transcript, the response is stored), sends one
    request, the POST of [{text: answer, language}] of that response to
    [/api/text-to-speech], plays the returned blob when there is one, and
    ends with [isPlayingTTS] off; the page's own language and
    [isSubmitting] are not touched. *)
Theorem handleVoiceResponse_shows_and_speaks
  (BACKEND_URL : jsstring) (r : QueryPage.voice_response)
  (st : QueryPage.state) (spoken : outcome (list Byte.byte)) :
  let run := QueryVoice.handleVoiceResponse BACKEND_URL r st spoken in
  QueryPage.queryText (snd run) = QueryPage.query_text r /\
  QueryPage.voiceResponse (snd run) = Some r /\
  QueryPage.isPlayingTTS (snd run) = false /\
  QueryPage.language (snd run) = QueryPage.language st /\
  QueryPage.isSubmitting (snd run) = QueryPage.isSubmitting st /\
  List.filter is_request (fst run) =
    [HttpPost (QueryPage.tts_url BACKEND_URL)
       (JObject [ ("text", JString (QueryPage.answer r));
                  ("language", JString (QueryPage.voice_language r)) ]%string)] /\
  List.filter is_audio (fst run) =
    match spoken with
    | Fulfilled blob => [AudioPlay (ObjectURL blob)]
    | Rejected => []
    end.
Proof. destruct spoken; cbn; repeat split. Qed.

(** X16: [processAudio] uploads the recording once, with the language it
    was given, and always ends with [isProcessing] off and the rest of the
    recorder untouched; the callbacks run, [onTranscript] first, exactly
    when the upload succeeded with a non-empty [query_text]; in every other
    case the parent's state is left alone and an error is shown. *)
Theorem processAudio_calls_back_on_speech
  {S : Type} (BACKEND_URL : jsstring)
  (onTranscript : jsstring -> S -> list effect * S)
  (onVoiceResponse : option (QueryPage.voice_response -> S -> list effect * S))
  (language : jsstring) (audioBlob : list Byte.byte)
  (uploaded : outcome (option QueryPage.voice_response))
  (st : VoiceRecorder.state) (parent : S) :
  let run := VoiceRecorder.processAudio BACKEND_URL onTranscript onVoiceResponse
               language audioBlob uploaded st parent in
  fst (fst run) <> [] /\
  List.filter is_upload (fst (fst run)) =
    [VoiceRecorder.PostVoiceQuery (VoiceRecorder.voice_url BACKEND_URL)
       audioBlob language] /\
  snd (fst run) = VoiceRecorder.setIsProcessing false st /\
  (forall r, uploaded = Fulfilled (Some r) -> QueryPage.query_text r <> [] ->
     snd run =
       let parent1 := snd (onTranscript (QueryPage.query_text r) parent) in
       match onVoiceResponse with
       | Some callback => snd (callback r parent1)
       | None => parent1
       end) /\
  ((forall r, uploaded = Fulfilled (Some r) -> QueryPage.query_text r = []) ->
   snd run = parent /\
   existsb (fun a => match a with
                     | VoiceRecorder.Page (ToastError _)
                     | VoiceRecorder.ToastProcessingFailed => true
                     | _ => false
                     end) (fst (fst run)) = true).
Proof.
  cbv zeta. unfold VoiceRecorder.processAudio.
  destruct uploaded as [[r|]|].
  - destruct (truthy_string (QueryPage.query_text r)) eqn:Ht.
    + destruct (onTranscript (QueryPage.query_text r) parent) as [fx1 parent1] eqn:H1.
      assert (Hcb : exists fx2 parent2,
                 match onVoiceResponse with
                 | Some callback => callback r parent1
                 | None => ([], parent1)
                 end = (fx2, parent2) /\
                 parent2 = match onVoiceResponse with
                           | Some callback => snd (callback r parent1)
                           | None => parent1
                           end).
      { destruct onVoiceResponse as [cb|]; [destruct (cb r parent1) eqn:E|];
          do 2 eexists; split; try reflexivity. }
      destruct Hcb as (fx2 & parent2 & -> & ->).
      cbn [fst snd]. split; [discriminate|]. split.
      { cbn [List.filter is_upload]. f_equal.
        rewrite List.filter_app, List.filter_app.
        assert (Hnone : forall l, List.filter is_upload (map VoiceRecorder.Page l) = []).
        { induction l; [reflexivity | exact IHl]. }
        now rewrite !Hnone. }
      split; [reflexivity|]. split.
      * intros r' Hr' _. injection Hr' as <-. rewrite H1. reflexivity.
      * intros Hall. specialize (Hall r eq_refl).
        apply truthy_string_spec in Ht. contradiction.
    + cbn. repeat split; try discriminate.
      intros r' Hr' Hne. injection Hr' as <-.
      apply truthy_string_spec in Hne. congruence.
  - cbn. repeat split; try discriminate.
  - cbn. repeat split; try discriminate.
Qed.

Lemma processAudio_calls_back_on_speech_witness :
  snd (VoiceRecorder.processAudio localhost
         (QueryVoice.handleVoiceTranscript)
         (Some (QueryPage.handleVoiceResponse_start localhost))
         (lit "en") some_audio (Fulfilled (Some theft_voice))
         recording blank_query) =
    QueryPage.setIsPlayingTTS true
      (QueryPage.setQueryText (lit "How do I file an FIR for theft?")
         (QueryPage.setVoiceResponse (Some theft_voice)
            (QueryPage.setQueryText (lit "How do I file an FIR for theft?")
               blank_query))).
Proof.
  pose proof (processAudio_calls_back_on_speech localhost
                QueryVoice.handleVoiceTranscript
                (Some (QueryPage.handleVoiceResponse_start localhost))
                (lit "en") some_audio (Fulfilled (Some theft_voice))
                recording blank_query) as (_ & _ & _ & H & _).
  apply (H theft_voice eq_refl). vm_compute. discriminate.
Defined.

(** X17: on the query page, a voice query the server understood (a
    non-empty transcript) puts the transcript in the text box, stores the
    response, and starts exactly one text-to-speech POST for its answer, so
    the submit button is enabled exactly when nothing is being submitted and
    the transcript is not blank; a voice query that failed or had no speech
    leaves the query page as it was and starts no text-to-speech. *)
Theorem voice_query_fills_the_form
  (BACKEND_URL : jsstring) (language : jsstring) (audioBlob : list Byte.byte)
  (uploaded : outcome (option QueryPage.voice_response))
  (rec : VoiceRecorder.state) (st : QueryPage.state) :
  let run := QueryVoice.processAudio BACKEND_URL language audioBlob uploaded rec st in
  let tts_posts :=
    List.filter (fun a => match a with
                          | VoiceRecorder.Page (HttpPost _ _) => true
                          | _ => false
                          end) (fst (fst run)) in
  (forall r, uploaded = Fulfilled (Some r) -> QueryPage.query_text r <> [] ->
     QueryPage.queryText (snd run) = QueryPage.query_text r /\
     QueryPage.voiceResponse (snd run) = Some r /\
     QueryPage.isPlayingTTS (snd run) = true /\
     QueryPage.submit_disabled (snd run) =
       QueryPage.isSubmitting st ||
       negb (truthy_string (trim (QueryPage.query_text r))) /\
     tts_posts =
       [VoiceRecorder.Page
          (HttpPost (QueryPage.tts_url BACKEND_URL)
             (JObject [ ("text", JString (QueryPage.answer r));
                        ("language", JString (QueryPage.voice_language r)) ]%string))]) /\
  ((forall r, uploaded = Fulfilled (Some r) -> QueryPage.query_text r = []) ->
   snd run = st /\ tts_posts = []).
Proof.
  cbv zeta. unfold QueryVoice.processAudio, VoiceRecorder.processAudio. split.
  - intros r -> Hne. apply truthy_string_spec in Hne. rewrite Hne.
    cbn. repeat split.
  - intros Hall. destruct uploaded as [[r|]|]; [|split; reflexivity..].
    rewrite (Hall r eq_refl). split; reflexivity.
Qed.

Lemma voice_query_fills_the_form_witness :
  let run := QueryVoice.processAudio localhost (lit "en") some_audio
               (Fulfilled (Some theft_voice)) recording blank_query in
  QueryPage.queryText (snd run) = lit "How do I file an FIR for theft?" /\
  QueryPage.voiceResponse (snd run) = Some theft_voice /\
  QueryPage.isPlayingTTS (snd run) = true /\
  QueryPage.submit_disabled (snd run) = false.
Proof.
  pose proof (voice_query_fills_the_form localhost (lit "en") some_audio
                (Fulfilled (Some theft_voice)) recording blank_query) as [H _].
  destruct (H theft_voice eq_refl) as (H1 & H2 & H3 & H4 & _);
    [vm_compute; discriminate|].
  repeat split; assumption.
Defined.

(** ** components/VoiceRecorder.jsx: recording *)

Lemma blob_of_data (datas chunks : list (list Byte.byte)) :
  VoiceRecorder.blob_of (fold_left VoiceRecorder.ondataavailable datas chunks) =
  VoiceRecorder.blob_of chunks ++ concat datas.
Proof.
  revert chunks. induction datas as [|d datas IH]; intros chunks; simpl.
  - now rewrite app_nil_r.
  - rewrite IH. unfold VoiceRecorder.ondataavailable.
    destruct d as [|b d]; simpl; [reflexivity|].
    unfold VoiceRecorder.blob_of. rewrite concat_app. simpl.
    now rewrite app_nil_r, <- app_assoc.
Qed.

Lemma fold_dataavailable (datas : list (list Byte.byte)) (st : VoiceRecorder.state) :
  fold_left VoiceRecorder.dataavailable datas st =
  {| VoiceRecorder.isRecording := VoiceRecorder.isRecording st;
     VoiceRecorder.isSupported := VoiceRecorder.isSupported st;
     VoiceRecorder.isProcessing := VoiceRecorder.isProcessing st;
     VoiceRecorder.has_recorder := VoiceRecorder.has_recorder st;
     VoiceRecorder.audioChunks :=
       fold_left VoiceRecorder.ondataavailable datas (VoiceRecorder.audioChunks st) |}.
Proof.
  revert st. induction datas as [|d datas IH]; intros st; simpl.
  - now destruct st.
  - now rewrite IH.
Qed.

Lemma page_actions_upload_nothing (fx : list effect) :
  List.filter is_upload (map VoiceRecorder.Page fx) = [].
Proof. induction fx; [reflexivity | exact IHfx]. Qed.

Lemma processAudio_uploads_once
  {S : Type} (B : jsstring) (onTranscript : jsstring -> S -> list effect * S)
  (onVoiceResponse : option (QueryPage.voice_response -> S -> list effect * S))
  (language : jsstring) (audioBlob : list Byte.byte)
  (uploaded : outcome (option QueryPage.voice_response))
  (st : VoiceRecorder.state) (parent : S) :
  let run := VoiceRecorder.processAudio B onTranscript onVoiceResponse
               language audioBlob uploaded st parent in
  List.filter is_upload (fst (fst run)) =
    [VoiceRecorder.PostVoiceQuery (VoiceRecorder.voice_url B) audioBlob language] /\
  snd (fst run) = VoiceRecorder.setIsProcessing false st.
Proof.
  cbv zeta. unfold VoiceRecorder.processAudio.
  destruct uploaded as [[r|]|]; [|split; reflexivity..].
  destruct (truthy_string (QueryPage.query_text r)); [|split; reflexivity].
  destruct (onTranscript _ parent) as [fx1 parent1].
  destruct (match onVoiceResponse with
            | Some callback => callback r parent1
            | None => ([], parent1)
            end) as [fx2 parent2].
  cbn [fst snd List.filter is_upload]. split; [|reflexivity]. f_equal.
  now rewrite !List.filter_app, !page_actions_upload_nothing.
Qed.

(** X18: the audio that is uploaded when a recording stops is everything
    the recorder delivered since the recording started, in order, whether a
    chunk came before or after the click on Stop; dropping the empty chunks
    loses nothing. The recorder is then neither recording nor processing. *)
Theorem recording_uploads_all_data
  {S : Type} (BACKEND_URL : jsstring)
  (onTranscript : jsstring -> S -> list effect * S)
  (onVoiceResponse : option (QueryPage.voice_response -> S -> list effect * S))
  (language : jsstring) (uploaded : outcome (option QueryPage.voice_response))
  (st : VoiceRecorder.state) (before after : list (list Byte.byte)) (parent : S) :
  let started := snd (VoiceRecorder.startRecording st VoiceRecorder.Started) in
  let stopping :=
    snd (VoiceRecorder.stopRecording
           (fold_left VoiceRecorder.dataavailable before started)) in
  let run :=
    VoiceRecorder.onstop BACKEND_URL onTranscript onVoiceResponse language uploaded
      (fold_left VoiceRecorder.dataavailable after stopping) parent in
  List.filter is_upload (fst (fst run)) =
    [VoiceRecorder.PostVoiceQuery (VoiceRecorder.voice_url BACKEND_URL)
       (concat (before ++ after)) language] /\
  VoiceRecorder.isRecording (snd (fst run)) = false /\
  VoiceRecorder.isProcessing (snd (fst run)) = false.
Proof.
  cbv zeta. unfold VoiceRecorder.onstop.
  rewrite !fold_dataavailable. cbn [VoiceRecorder.startRecording snd
    VoiceRecorder.isRecording VoiceRecorder.isSupported VoiceRecorder.isProcessing
    VoiceRecorder.has_recorder VoiceRecorder.audioChunks].
  unfold VoiceRecorder.stopRecording.
  cbn [VoiceRecorder.isRecording VoiceRecorder.has_recorder andb snd
    VoiceRecorder.isSupported VoiceRecorder.isProcessing VoiceRecorder.audioChunks].
  match goal with
  | |- context [VoiceRecorder.processAudio ?B ?t ?v ?l ?a ?u ?s ?p] =>
      pose proof (processAudio_uploads_once B t v l a u s p) as [Hup Hst];
      destruct (VoiceRecorder.processAudio B t v l a u s p) as [[fx st'] parent']
  end.
  cbn [fst snd] in *. subst st'. split; [|split; reflexivity].
  cbn [List.filter is_upload]. rewrite List.filter_app, Hup. cbn.
  rewrite !blob_of_data, concat_app. reflexivity.
Qed.

(** X19: once [startRecording] has failed, voice input is off for good:
    the component renders the notice instead of its buttons,
    [toggleRecording] only shows an error and asks for no microphone, and no
    handler turns [isSupported] back on. *)
Theorem failed_start_disables_recorder
  (st : VoiceRecorder.state) (error_name : jsstring)
  (media : VoiceRecorder.media_outcome) (data : list Byte.byte) (b : bool) :
  VoiceRecorder.isSupported
    (snd (VoiceRecorder.startRecording st (VoiceRecorder.FailedBeforeRecorder error_name)))
  = false /\
  VoiceRecorder.isSupported
    (snd (VoiceRecorder.startRecording st (VoiceRecorder.FailedAtStart error_name)))
  = false /\
  (VoiceRecorder.isSupported st = false ->
   VoiceRecorder.render st = VoiceRecorder.Unsupported /\
   VoiceRecorder.toggleRecording st media =
     ([VoiceRecorder.Page
         (ToastError "Voice recording is not supported in your browser.")], st) /\
   VoiceRecorder.isSupported (snd (VoiceRecorder.startRecording st media)) = false /\
   VoiceRecorder.isSupported (snd (VoiceRecorder.stopRecording st)) = false /\
   VoiceRecorder.isSupported (VoiceRecorder.dataavailable st data) = false /\
   VoiceRecorder.isSupported (VoiceRecorder.setIsProcessing b st) = false).
Proof.
  split; [reflexivity|]. split; [reflexivity|]. intros Hs.
  unfold VoiceRecorder.render, VoiceRecorder.toggleRecording,
    VoiceRecorder.stopRecording. rewrite Hs. cbn [negb].
  repeat split; try assumption.
  - destruct media; [exact Hs | reflexivity..].
  - destruct (VoiceRecorder.has_recorder st && VoiceRecorder.isRecording st);
      [reflexivity | exact Hs].
Qed.

Lemma failed_start_disables_recorder_witness :
  let failed :=
    snd (VoiceRecorder.startRecording VoiceRecorder.initial
           (VoiceRecorder.FailedBeforeRecorder (lit "NotAllowedError"))) in
  VoiceRecorder.render failed = VoiceRecorder.Unsupported /\
  VoiceRecorder.toggleRecording failed VoiceRecorder.Started =
    ([VoiceRecorder.Page
        (ToastError "Voice recording is not supported in your browser.")], failed).
Proof.
  intros failed.
  destruct (failed_start_disables_recorder failed (lit "NotAllowedError")
              VoiceRecorder.Started [] false) as (_ & _ & H).
  destruct (H eq_refl) as (Hr & Ht & _). split; assumption.
Defined.

Lemma recording_has_recorder (st : VoiceRecorder.state) :
  VoiceRecorder.reachable st ->
  VoiceRecorder.isRecording st = true -> VoiceRecorder.has_recorder st = true.
Proof.
  induction 1 as [|st media _ IH|st _ IH|st data _ IH|st _ IH];
    try exact IH; try discriminate.
  - destruct media; [reflexivity | exact IH | reflexivity].
  - unfold VoiceRecorder.stopRecording.
    destruct (VoiceRecorder.has_recorder st && VoiceRecorder.isRecording st);
      [discriminate | exact IH].
Qed.

(** X20: in every state the component can reach, at most one of the Start
    and Stop buttons is enabled, and an enabled Stop button always works:
    [isRecording] is only ever set with a recorder in place, so
    [stopRecording] stops the recorder and turns [isProcessing] on, which
    disables both buttons. *)
Theorem stop_button_stops (st : VoiceRecorder.state) (start_disabled : bool) :
  VoiceRecorder.reachable st ->
  VoiceRecorder.render st = VoiceRecorder.Buttons start_disabled false ->
  start_disabled = true /\
  fst (VoiceRecorder.stopRecording st) =
    [VoiceRecorder.RecorderStop; VoiceRecorder.ToastInfo "Processing audio..."] /\
  VoiceRecorder.render (snd (VoiceRecorder.stopRecording st)) =
    VoiceRecorder.Buttons true true.
Proof.
  intros Hreach Hview. unfold VoiceRecorder.render in Hview.
  destruct (VoiceRecorder.isSupported st) eqn:Hs; [|discriminate]. cbn in Hview.
  injection Hview as Hstart Hstop. apply orb_false_iff in Hstop as [Hrec Hproc].
  apply negb_false_iff in Hrec.
  pose proof (recording_has_recorder st Hreach Hrec) as Hhas.
  unfold VoiceRecorder.stopRecording, VoiceRecorder.render.
  rewrite Hhas, Hrec. cbn. rewrite Hs. cbn.
  rewrite Hrec in Hstart. auto.
Qed.

Lemma recording_reachable : VoiceRecorder.reachable recording.
Proof.
  apply (VoiceRecorder.reachable_data
           (VoiceRecorder.dataavailable
              (snd (VoiceRecorder.startRecording VoiceRecorder.initial
                      VoiceRecorder.Started))
              [Byte.x1a; Byte.x45]) [Byte.xdf]).
  apply VoiceRecorder.reachable_data.
  apply VoiceRecorder.reachable_start.
  apply VoiceRecorder.reachable_initial.
Defined.

Lemma stop_button_stops_witness :
  fst (VoiceRecorder.stopRecording recording) =
    [VoiceRecorder.RecorderStop; VoiceRecorder.ToastInfo "Processing audio..."] /\
  VoiceRecorder.render (snd (VoiceRecorder.stopRecording recording)) =
    VoiceRecorder.Buttons true true.
Proof.
  apply (stop_button_stops recording true recording_reachable). reflexivity.
Defined.

(** ** pages/DocumentsPage.jsx: what is posted and what is kept *)

Lemma hd_split_prefix (sep : N) (a b : jsstring) :
  free_of sep a = true -> hd [] (split sep (a ++ sep :: b)) = a.
Proof.
  induction a as [|c a IH]; simpl; intros H.
  - now rewrite N.eqb_refl.
  - apply andb_true_iff in H as [Hc H]. apply negb_true_iff in Hc. rewrite Hc.
    specialize (IH H). pose proof (split_not_nil sep (a ++ sep :: b)) as Hne.
    destruct (split sep (a ++ sep :: b)); [contradiction|].
    simpl in *. now rewrite IH.
Qed.

Lemma split_whole (sep : N) (s : jsstring) :
  free_of sep s = true -> split sep s = [s].
Proof.
  induction s as [|c s IH]; simpl; intros H; [reflexivity|].
  apply andb_true_iff in H as [Hc H]. apply negb_true_iff in Hc.
  now rewrite Hc, (IH H).
Qed.

Lemma hd_split_free_of (sep : N) (s : jsstring) :
  free_of sep (hd [] (split sep s)) = true.
Proof.
  pose proof (split_free_of sep s) as H.
  destruct (split sep s); [reflexivity|]. simpl in *.
  now apply andb_true_iff in H as [H _].
Qed.

(** X21: the [place] that is posted is never empty and holds no comma: it
    is the address up to its first comma (the whole address when it has
    none), as typed, and ['Your City'] when that part is empty, which for a
    validated address means that it begins with a comma. *)
Theorem place_is_first_segment (d : DocumentsPage.selected) :
  DocumentsPage.place d <> [] /\
  free_of comma (DocumentsPage.place d) = true /\
  (forall city rest,
     DocumentsPage.address d = city ++ comma :: rest ->
     free_of comma city = true ->
     DocumentsPage.place d = if truthy_string city then city else lit "Your City") /\
  (free_of comma (DocumentsPage.address d) = true ->
   DocumentsPage.address d <> [] ->
   DocumentsPage.place d = DocumentsPage.address d).
Proof.
  unfold DocumentsPage.place. repeat split.
  - destruct (truthy_string (hd [] (split comma (DocumentsPage.address d)))) eqn:Ht;
      [now apply truthy_string_spec | discriminate].
  - destruct (truthy_string (hd [] (split comma (DocumentsPage.address d))));
      [apply hd_split_free_of | reflexivity].
  - intros city rest -> Hfree. now rewrite hd_split_prefix.
  - intros Hfree Hne. rewrite (split_whole _ _ Hfree). simpl.
    apply truthy_string_spec in Hne. now rewrite Hne.
Qed.

Lemma place_is_first_segment_witness :
  DocumentsPage.place (DocumentsPage.OfFir (fir_of (lit "Ravi Kumar")
                                              (lit "12 MG Road, Hyderabad")))
    = lit "12 MG Road" /\
  DocumentsPage.place (DocumentsPage.OfFir (fir_of (lit "Ravi Kumar")
                                              (lit ", Hyderabad")))
    = lit "Your City" /\
  DocumentsPage.place (DocumentsPage.OfFir (fir_of (lit "Ravi Kumar")
                                              (lit "Hyderabad")))
    = lit "Hyderabad".
Proof.
  split; [|split].
  - destruct (place_is_first_segment
                (DocumentsPage.OfFir (fir_of (lit "Ravi Kumar")
                                        (lit "12 MG Road, Hyderabad"))))
      as (_ & _ & H & _).
    apply (H (lit "12 MG Road") (lit " Hyderabad")); reflexivity.
  - destruct (place_is_first_segment
                (DocumentsPage.OfFir (fir_of (lit "Ravi Kumar") (lit ", Hyderabad"))))
      as (_ & _ & H & _).
    apply (H (lit "") (lit " Hyderabad")); reflexivity.
  - destruct (place_is_first_segment
                (DocumentsPage.OfFir (fir_of (lit "Ravi Kumar") (lit "Hyderabad"))))
      as (_ & _ & _ & H).
    apply H; [reflexivity | discriminate].
Defined.

(** X22: the [current_date] that is posted is the clock's ISO string up to
    its first ['T'], that is the date part of [YYYY-MM-DDTHH:mm:ss.sssZ]. *)
Theorem current_date_is_date_part (date time : jsstring) :
  free_of (N_of_ascii "T") date = true ->
  DocumentsPage.current_date (date ++ N_of_ascii "T" :: time) = date.
Proof. intros H. unfold DocumentsPage.current_date. now apply hd_split_prefix. Qed.

Lemma current_date_is_date_part_witness :
  DocumentsPage.current_date (lit "2024-01-15" ++ N_of_ascii "T" :: lit "10:30:00.000Z")
    = lit "2024-01-15".
Proof.
  apply (current_date_is_date_part (lit "2024-01-15") (lit "10:30:00.000Z")).
  reflexivity.
Defined.

(** X23: [handleGenerateDocument] never changes the forms, the document
    type or the language; once a request was made, [isGenerating] is off
    again whatever the answer, and the preview holds what the server
    returned when the request succeeded (no document when it returned
    [null]) and keeps the previous document when it failed. *)
Theorem handleGenerateDocument_keeps_forms
  (BACKEND_URL : jsstring) (st : DocumentsPage.state) (now : jsstring)
  (posted : outcome json) :
  let run := DocumentsPage.handleGenerateDocument BACKEND_URL st now posted in
  DocumentsPage.firDetails (snd run) = DocumentsPage.firDetails st /\
  DocumentsPage.rtiDetails (snd run) = DocumentsPage.rtiDetails st /\
  DocumentsPage.docType (snd run) = DocumentsPage.docType st /\
  DocumentsPage.language (snd run) = DocumentsPage.language st /\
  (existsb is_request (fst run) = true ->
   DocumentsPage.isGenerating (snd run) = false /\
   DocumentsPage.generatedDoc (snd run) =
     match posted with
     | Fulfilled JNull => None
     | Fulfilled data => Some data
     | Rejected => DocumentsPage.generatedDoc st
     end).
Proof.
  cbv zeta. unfold DocumentsPage.handleGenerateDocument.
  destruct (negb (truthy_string (DocumentsPage.name (DocumentsPage.details st)))
            || negb (truthy_string (DocumentsPage.address (DocumentsPage.details st)))).
  - cbn. repeat split; discriminate.
  - destruct posted as [[]|]; cbn; repeat split.
Qed.

Lemma handleGenerateDocument_keeps_forms_witness :
  (let run := DocumentsPage.handleGenerateDocument localhost ravi_documents
                morning Rejected in
   DocumentsPage.isGenerating (snd run) = false /\
   DocumentsPage.generatedDoc (snd run) = None) /\
  (let run := DocumentsPage.handleGenerateDocument localhost ravi_documents
                morning (Fulfilled (JString (lit "FIR"))) in
   DocumentsPage.isGenerating (snd run) = false /\
   DocumentsPage.generatedDoc (snd run) = Some (JString (lit "FIR"))) /\
  (let run := DocumentsPage.handleGenerateDocument localhost ravi_documents
                morning (Fulfilled JNull) in
   DocumentsPage.isGenerating (snd run) = false /\
   DocumentsPage.generatedDoc (snd run) = None).
Proof.
  split; [|split].
  - apply (handleGenerateDocument_keeps_forms localhost ravi_documents morning Rejected).
    vm_compute. reflexivity.
  - apply (handleGenerateDocument_keeps_forms localhost ravi_documents morning
             (Fulfilled (JString (lit "FIR")))).
    vm_compute. reflexivity.
  - apply (handleGenerateDocument_keeps_forms localhost ravi_documents morning
             (Fulfilled JNull)).
    vm_compute. reflexivity.
Defined.


(** ** pages/ResponsePage.jsx: audio and loading *)

(** X25: when [playTextToSpeech] gets its audio, the audio that was playing
    from an earlier click is paused before the new one plays, and the page
    then holds the new one; when the request fails, nothing is paused or
    played and the page keeps the audio it had. Either way the query is not
    changed and [isGeneratingSpeech] is off at the end. *)
Theorem playTextToSpeech_replaces_audio
  (BACKEND_URL : jsstring) (st : ResponsePage.state)
  (spoken : outcome (list Byte.byte)) :
  let run := ResponsePage.playTextToSpeech BACKEND_URL st spoken in
  ResponsePage.query (snd run) = ResponsePage.query st /\
  (existsb is_request (fst run) = true ->
   ResponsePage.isGeneratingSpeech (snd run) = false /\
   match spoken with
   | Fulfilled blob =>
       List.filter is_audio (fst run) =
         match ResponsePage.audioRef st with
         | Some playing => [AudioPause playing; AudioPlay (ObjectURL blob)]
         | None => [AudioPlay (ObjectURL blob)]
         end /\
       ResponsePage.audioRef (snd run) = Some (ObjectURL blob)
   | Rejected =>
       List.filter is_audio (fst run) = [] /\
       ResponsePage.audioRef (snd run) = ResponsePage.audioRef st
   end).
Proof.
  cbv zeta. unfold ResponsePage.playTextToSpeech.
  destruct (ResponsePage.query st) as [q|] eqn:Hq; [|cbn; split; [auto | discriminate]].
  destruct (ResponsePage.text_to_speak st); [|cbn; split; [auto | discriminate]].
  destruct spoken as [blob|].
  - destruct (ResponsePage.audioRef st); cbn; rewrite Hq; auto.
  - cbn. rewrite Hq. auto.
Qed.

Lemma playTextToSpeech_replaces_audio_witness :
  let run := ResponsePage.playTextToSpeech localhost hindi_response
               (Fulfilled some_audio) in
  ResponsePage.isGeneratingSpeech (snd run) = false /\
  List.filter is_audio (fst run) = [AudioPlay (ObjectURL some_audio)] /\
  ResponsePage.audioRef (snd run) = Some (ObjectURL some_audio).
Proof.
  apply (playTextToSpeech_replaces_audio localhost hindi_response
           (Fulfilled some_audio)).
  reflexivity.
Defined.

(** X26: mounted with a query id, the page makes one request, the GET of
    [/api/queries/<id>], and then shows the query when the server returned
    one, and the "Query Not Found" card otherwise, with ['Failed to load
    query response'] when the request failed; mounted without an id it
    makes no request and keeps showing the spinner. *)
Theorem fetchQuery_then_render
  (BACKEND_URL : jsstring) (queryId : option jsstring)
  (fetched : outcome (option ResponsePage.query_record)) :
  let run := ResponseView.fetchQuery BACKEND_URL queryId fetched
               ResponseView.initial in
  (forall id, queryId = Some id -> id <> [] ->
     List.filter is_request (fst run) =
       [HttpGet (BACKEND_URL ++ lit "/api" ++ lit "/queries/" ++ id)] /\
     ResponseView.render (snd run) =
       match fetched with
       | Fulfilled (Some q) => ResponseView.Content q false
       | Fulfilled None =>
           ResponseView.NotFound "The requested query could not be found."
       | Rejected => ResponseView.NotFound "Failed to load query response"
       end) /\
  (queryId = None \/ queryId = Some [] ->
   fst run = [] /\ ResponseView.render (snd run) = ResponseView.Spinner).
Proof.
  cbv zeta. split.
  - intros id -> Hne. apply truthy_string_spec in Hne.
    unfold ResponseView.fetchQuery. rewrite Hne.
    unfold ResponseView.query_url, API. rewrite <- !app_assoc.
    destruct fetched as [[q|]|]; cbn; split; reflexivity.
  - intros [-> | ->]; split; reflexivity.
Qed.

Lemma fetchQuery_then_render_witness :
  ResponseView.render
    (snd (ResponseView.fetchQuery localhost (Some (lit "q1")) Rejected
            ResponseView.initial)) =
    ResponseView.NotFound "Failed to load query response" /\
  ResponseView.render
    (snd (ResponseView.fetchQuery localhost None Rejected ResponseView.initial)) =
    ResponseView.Spinner.
Proof.
  destruct (fetchQuery_then_render localhost (Some (lit "q1")) Rejected) as [H _].
  destruct (fetchQuery_then_render localhost None Rejected) as [_ H'].
  split.
  - apply (H (lit "q1") eq_refl). discriminate.
  - apply H'. left. reflexivity.
Defined.

(** ** components/Navbar.jsx *)

(** X27: whatever the location, at most one link of the bar is shown as
    active, and on the path of a link that link, and only it, is. *)
Theorem one_active_link (pathname : jsstring) :
  (length (Navbar.active_links pathname) <= 1)%nat /\
  (forall l, In l Navbar.navLinks -> Navbar.active_links (Navbar.path l) = [l]).
Proof.
  split.
  - unfold Navbar.active_links, Navbar.navLinks, Navbar.isActive.
    cbn [List.filter Navbar.path].
    repeat match goal with
           | |- context [decide (pathname = ?p)] =>
               destruct (decide (pathname = p))
           end; cbn [length]; try lia;
      exfalso;
      match goal with
      | H1 : pathname = ?a, H2 : pathname = ?b |- _ =>
          rewrite H1 in H2; discriminate H2
      end.
  - intros l Hin. unfold Navbar.navLinks in Hin.
    repeat (destruct Hin as [<- | Hin]; [vm_compute; reflexivity|]).
    destruct Hin.
Qed.

Lemma one_active_link_witness :
  Navbar.active_links (lit "/query") =
    [{| Navbar.path := lit "/query"; Navbar.label := lit "Legal Query" |}].
Proof.
  destruct (one_active_link (lit "/query")) as [_ H].
  apply (H {| Navbar.path := lit "/query"; Navbar.label := lit "Legal Query" |}).
  right. left. reflexivity.
Defined.

Lemma language_is_listed (st : Navbar.state) :
  Navbar.reachable st ->
  In (Navbar.currentLang st) (map Navbar.code Navbar.languages).
Proof.
  induction 1 as [|st e st' _ IH Hstep]; [left; reflexivity|].
  destruct e; simpl in Hstep.
  - destruct (nth_error Navbar.languages i) as [lang|] eqn:Hi; [|discriminate].
    injection Hstep as <-. apply nth_error_In in Hi.
    cbn [Navbar.currentLang]. now apply List.in_map.
  - injection Hstep as <-. exact IH.
  - destruct (Navbar.mobileMenuOpen st); [|discriminate].
    injection Hstep as <-. exact IH.
Qed.

(** X28: the language button always shows a flag: the current language is
    only ever set from the entries of the menu, so in every state the bar
    can reach the lookup of its flag finds one. *)
Theorem language_flag_is_shown (st : Navbar.state) :
  Navbar.reachable st ->
  exists lang, In lang Navbar.languages /\
               Navbar.code lang = Navbar.currentLang st /\
               Navbar.shown_flag st = Some (Navbar.flag lang).
Proof.
  intros Hreach. apply language_is_listed in Hreach.
  unfold Navbar.shown_flag. simpl in Hreach.
  destruct Hreach as [H | [H | [H | []]]]; rewrite <- H.
  - exists {| Navbar.code := lit "en"; Navbar.flag := lit "EN" |}.
    split; [left; reflexivity | split; vm_compute; reflexivity].
  - exists {| Navbar.code := lit "hi"; Navbar.flag := lit "HI" |}.
    split; [right; left; reflexivity | split; vm_compute; reflexivity].
  - exists {| Navbar.code := lit "te"; Navbar.flag := lit "TE" |}.
    split; [right; right; left; reflexivity | split; vm_compute; reflexivity].
Qed.

Lemma language_flag_is_shown_witness :
  exists lang, In lang Navbar.languages /\
               Navbar.code lang = lit "hi" /\
               Navbar.shown_flag {| Navbar.mobileMenuOpen := false;
                                    Navbar.currentLang := lit "hi" |}
                 = Some (Navbar.flag lang).
Proof.
  apply (language_flag_is_shown {| Navbar.mobileMenuOpen := false;
                                   Navbar.currentLang := lit "hi" |}).
  apply (Navbar.reachable_step Navbar.initial (Navbar.PickLanguage 1)).
  - apply Navbar.reachable_initial.
  - reflexivity.
Defined.
